(** * Atlassian integration of Open WebUI: connection lifecycle and content picker

    A shallow embedding of
    - [src/lib/apis/atlassian/index.ts]                       (module [Api]),
    - [src/lib/components/common/AtlassianConnection.svelte]  (module [Panel]),
    - the connections settings page, the second script in
      [backend/dev.sh] (lines 179-320)                        (module [ConnectionsPage]),
    - the content picker modal, the third script in
      [backend/dev.sh] (lines 321-844)                        (module [Picker]),
    over a small model of the JavaScript values and browser services the
    code uses (modules [JS] and [Eff]).  Module [Spec] holds the reference
    notions the properties are stated with; the properties follow it. *)

From Stdlib Require Import ZArith NArith Ascii String List Bool Lia.
From Stdlib Require Strings.Byte.
From stdpp Require Import base strings list gmap.
Import ListNotations.
Set Warnings "-register-all".

(** ** JavaScript values and the built-ins the sources call *)

Module JS.

(** A JavaScript string is held as the Rocq string of its UTF-8 bytes.  All
    the delimiters the program looks for are ASCII, so searching, replacing
    and comparing bytes agrees with the same operation on code units. *)

Definition chr (n : nat) : ascii := ascii_of_nat n.
Definition code (c : ascii) : nat := nat_of_ascii c.
Definition newline : string := String (chr 10) "".

(** A value as [JSON.parse] or the program builds it.  A number is held by
    its canonical decimal text (what [String(n)] returns): the program only
    tests numbers for truthiness and prints them.  An object lists its
    properties; a property is looked up from the left. *)
Inductive value : Type :=
| VUndefined
| VNull
| VBool (b : bool)
| VNum (repr : string)
| VStr (s : string)
| VArr (items : list value)
| VObj (props : list (string * value)).

(** [Error] objects are objects with a [name] and a [message]. *)
Definition TypeError (msg : string) : value :=
  VObj [("name", VStr "TypeError"); ("message", VStr msg)].
Definition SyntaxError (msg : string) : value :=
  VObj [("name", VStr "SyntaxError"); ("message", VStr msg)].

(** Evaluation either completes with a value or throws one. *)
Inductive outcome (A : Type) : Type :=
| Ok (a : A)
| Throw (e : value).
Arguments Ok {A} a.
Arguments Throw {A} e.

(** Evaluating [m] and going on with its value, or passing on what it throws. *)
Notation "'let?' x := m 'in' k" :=
  (match m with Ok x => k | Throw e => Throw e end)
  (at level 10, x name, m at level 100, k at level 200).

Definition truthy (v : value) : bool :=
  match v with
  | VUndefined | VNull => false
  | VBool b => b
  | VNum r => negb (String.eqb r "0" || String.eqb r "NaN")
  | VStr s => negb (String.eqb s "")
  | VArr _ | VObj _ => true
  end.

Definition nullish (v : value) : bool :=
  match v with
  | VUndefined | VNull => true
  | _ => false
  end.

Fixpoint lookup_prop (k : string) (props : list (string * value)) : value :=
  match props with
  | [] => VUndefined
  | (k', v) :: rest => if String.eqb k' k then v else lookup_prop k rest
  end.

(** [v.k]: reading a property of [null] or [undefined] throws; primitives
    and arrays have none of the property names this program reads. *)
Definition get (v : value) (k : string) : outcome value :=
  match v with
  | VUndefined => Throw (TypeError "Cannot read properties of undefined")
  | VNull => Throw (TypeError "Cannot read properties of null")
  | VObj props => Ok (lookup_prop k props)
  | _ => Ok VUndefined
  end.

(** [v?.k] *)
Definition get_opt (v : value) (k : string) : value :=
  match v with
  | VObj props => lookup_prop k props
  | _ => VUndefined
  end.

(** [a || b] *)
Definition or_else (a b : value) : value := if truthy a then a else b.

Fixpoint join (sep : string) (parts : list string) : string :=
  match parts with
  | [] => ""
  | [p] => p
  | p :: rest => p +:+ sep +:+ join sep rest
  end.

(** [Object.hasOwn(o, k)] on the properties of [o]. *)
Fixpoint has_own (k : string) (props : list (string * value)) : bool :=
  match props with
  | [] => false
  | (k', _) :: rest => String.eqb k' k || has_own k rest
  end.

(** [ToString(v)], as template literals and [+=] on a string apply it.
    An object goes through [OrdinaryToPrimitive]: it is asked for its
    [toString] and then its [valueOf].  An object made by [JSON.parse]
    inherits both from [Object.prototype] unless it has a property of that
    name of its own, which is data and cannot be called.  With its own
    [toString] the inherited one is hidden, [valueOf] (inherited, it gives
    the object back; own, it cannot be called) yields no primitive, and the
    conversion throws; otherwise the text is ["[object Object]"].  An array
    joins the conversions of its items with commas, [null] and [undefined]
    counting as empty. *)
Fixpoint toString (v : value) : outcome string :=
  match v with
  | VUndefined => Ok "undefined"
  | VNull => Ok "null"
  | VBool true => Ok "true"
  | VBool false => Ok "false"
  | VNum r => Ok r
  | VStr s => Ok s
  | VArr items =>
      let? parts :=
        (fix each (l : list value) : outcome (list string) :=
           match l with
           | [] => Ok []
           | x :: l' =>
               let? s := (if nullish x then Ok "" else toString x) in
               let? rest := each l' in
               Ok (s :: rest)
           end) items in
      Ok (join "," parts)
  | VObj props =>
      if has_own "toString" props
      then Throw (TypeError "Cannot convert object to primitive value")
      else Ok "[object Object]"
  end.

(** [ToPrimitive(v)], which [new Date(v)] applies to its argument: a
    primitive is taken as it is, an object or array is converted as above. *)
Definition toPrimitive (v : value) : outcome value :=
  match v with
  | VArr _ | VObj _ => let? s := toString v in Ok (VStr s)
  | _ => Ok v
  end.


(** [v === "lit"] *)
Definition eq_str (v : value) (lit : string) : bool :=
  match v with VStr s => String.eqb s lit | _ => false end.

(** *** String.prototype.trim

    White space and line terminators of ECMAScript, as UTF-8 byte
    sequences: TAB LF VT FF CR SP, U+00A0, U+1680, U+2000..U+200A, U+2028,
    U+2029, U+202F, U+205F, U+3000, U+FEFF. *)
Definition white_space : list (list nat) :=
  [ [9]; [10]; [11]; [12]; [13]; [32];
    [194; 160];
    [225; 154; 128];
    [226; 128; 128]; [226; 128; 129]; [226; 128; 130]; [226; 128; 131];
    [226; 128; 132]; [226; 128; 133]; [226; 128; 134]; [226; 128; 135];
    [226; 128; 136]; [226; 128; 137]; [226; 128; 138];
    [226; 128; 168]; [226; 128; 169]; [226; 128; 175];
    [226; 129; 159];
    [227; 128; 128];
    [239; 187; 191] ].

Fixpoint starts_with (p : list nat) (l : list ascii) : bool :=
  match p, l with
  | [], _ => true
  | n :: p', c :: l' => Nat.eqb n (code c) && starts_with p' l'
  | _ :: _, [] => false
  end.

(** Bytes taken by the white-space character at the head of [l], if any. *)
Fixpoint ws_len (table : list (list nat)) (l : list ascii) : nat :=
  match table with
  | [] => 0
  | p :: table' => if starts_with p l then length p else ws_len table' l
  end.

Fixpoint drop_ws (table : list (list nat)) (skip : nat) (l : list ascii) : list ascii :=
  match l with
  | [] => []
  | c :: l' =>
      match skip with
      | S k => drop_ws table k l'
      | O =>
          match ws_len table l with
          | O => l
          | S k => drop_ws table k l'
          end
      end
  end.

Definition trimStart (s : string) : string :=
  string_of_list_ascii (drop_ws white_space 0 (list_ascii_of_string s)).

Definition trimEnd (s : string) : string :=
  string_of_list_ascii
    (rev (drop_ws (map (@rev nat) white_space) 0 (rev (list_ascii_of_string s)))).

Definition trim (s : string) : string := trimEnd (trimStart s).

(** *** String.prototype.replace with a global pattern *)

(** [s.replace(/pat/g, rep)] for a literal, non-empty [pat]: matches are
    found from the left and do not overlap; [skip] counts the bytes of the
    current match still to be passed over. *)
Fixpoint replace_from (pat rep : string) (skip : nat) (s : string) : string :=
  match s with
  | "" => ""
  | String c s' =>
      match skip with
      | S k => replace_from pat rep k s'
      | O =>
          if String.prefix pat s
          then rep +:+ replace_from pat rep (String.length pat - 1) s'
          else String c (replace_from pat rep 0 s')
      end
  end.

Definition replaceAll (pat rep s : string) : string := replace_from pat rep 0 s.

Fixpoint contains_char (c : ascii) (s : string) : bool :=
  match s with
  | "" => false
  | String d s' => Ascii.eqb d c || contains_char c s'
  end.

(** [s.replace(/<[^>]*>/g, '')]: a match starts at a "<" that has a ">"
    somewhere after it and runs to the first such ">". *)
Fixpoint strip_from (inTag : bool) (s : string) : string :=
  match s with
  | "" => ""
  | String c s' =>
      if inTag then
        if Ascii.eqb c ">" then strip_from false s' else strip_from true s'
      else if Ascii.eqb c "<" && contains_char ">" s' then strip_from true s'
      else String c (strip_from false s')
  end.

Definition stripTags (s : string) : string := strip_from false s.

(** *** Arrays *)

Section ForEach.
Context {S : Type}.
Variable callback : value -> S -> outcome S.

(** [items.forEach(callback)] where the callback updates a captured
    variable of type [S] and may throw. *)
Fixpoint forEach (items : list value) (s : S) : outcome S :=
  match items with
  | [] => Ok s
  | x :: rest =>
      match callback x s with
      | Ok s' => forEach rest s'
      | Throw e => Throw e
      end
  end.

End ForEach.

Section ArrayProp.
Context {A : Type}.
Variable on_array : list value -> A.
Variable otherwise : A.

(** [if (o.k && Array.isArray(o.k)) { on_array o.k } else { otherwise }]
    on the properties of an object [o]. *)
Fixpoint array_prop (k : string) (props : list (string * value)) : A :=
  match props with
  | [] => otherwise
  | (k', v) :: rest =>
      if String.eqb k' k then
        match v with VArr items => on_array items | _ => otherwise end
      else array_prop k rest
  end.

End ArrayProp.

End JS.

(** ** Browser services: storage, location, network, notifications *)

Module Eff.
Import JS.

Record request : Type := Request {
  method : string;
  url : string;
  authorization : string;
  body : option value
}.

(** What [fetch] brings back: the promise rejects (no connection), or it
    resolves to a response whose body may fail to parse as JSON. *)
Inductive response : Type :=
| NetworkError
| Response (ok : bool) (json : option value).

(** Effects an observer of the page can see, oldest first in a history.
    A toast carries the message key handed to [$i18n.t] and its arguments;
    console output is not recorded. *)
Inductive event : Type :=
| Fetch (r : request)
| ToastError (key : string) (args : list (string * value))
| ToastSuccess (key : string)
| SetItem (k v : string)
| RemoveItem (k : string)
| Navigate (href : string)
| ReplaceState
| Goto (path : string)
| Reload
| OnSelect (selection : value).

(** The page as the code sees it: [localStorage], the parsed query string
    of [window.location], the server behind [fetch] (it may answer by what
    happened before), the history of effects and the component's own
    variables. *)
Record world (V : Type) : Type := World {
  localStorage : gmap string string;
  search : list (string * string);
  network : list event -> request -> response;
  events : list event;
  vars : V
}.
Arguments World {V}.
Arguments localStorage {V}.
Arguments search {V}.
Arguments network {V}.
Arguments events {V}.
Arguments vars {V}.

Definition M (V A : Type) : Type := world V -> outcome A * world V.

Section Monad.
Context {V : Type}.

Definition ret {A} (a : A) : M V A := fun w => (Ok a, w).

Definition throw {A} (e : value) : M V A := fun w => (Throw e, w).

Definition bind {A B} (m : M V A) (k : A -> M V B) : M V B :=
  fun w =>
    match m w with
    | (Ok a, w') => k a w'
    | (Throw e, w') => (Throw e, w')
    end.

Definition lift {A} (o : outcome A) : M V A := fun w => (o, w).

(** [try { m } catch (e) { h e } finally { f }] *)
Definition try_catch_finally {A} (m : M V A) (h : value -> M V A) (f : M V unit) : M V A :=
  fun w =>
    let '(r, w1) :=
      match m w with
      | (Ok a, w') => (Ok a, w')
      | (Throw e, w') => h e w'
      end in
    match f w1 with
    | (Ok _, w2) => (r, w2)
    | (Throw e, w2) => (Throw e, w2)
    end.

Definition emit (e : event) : M V unit :=
  fun w => (Ok tt, World (localStorage w) (search w) (network w) (events w ++ [e]) (vars w)).

Definition read : M V V := fun w => (Ok (vars w), w).

Definition modify (f : V -> V) : M V unit :=
  fun w => (Ok tt, World (localStorage w) (search w) (network w) (events w) (f (vars w))).

(** [fetch(url, {method, headers, body})] *)
Definition fetch (r : request) : M V response :=
  fun w =>
    (Ok (network w (events w) r),
     World (localStorage w) (search w) (network w) (events w ++ [Fetch r]) (vars w)).

(** [localStorage.getItem(k)]: the stored string or [null]. *)
Definition getItem (k : string) : M V (option string) :=
  fun w => (Ok (localStorage w !! k), w).

Definition setItem (k v : string) : M V unit :=
  fun w =>
    (Ok tt,
     World (<[k:=v]> (localStorage w)) (search w) (network w)
           (events w ++ [SetItem k v]) (vars w)).

Definition removeItem (k : string) : M V unit :=
  fun w =>
    (Ok tt,
     World (delete k (localStorage w)) (search w) (network w)
           (events w ++ [RemoveItem k]) (vars w)).

(** [localStorage.token]: a property read, which gives the stored string,
    or [undefined] ([None]) when nothing is stored. *)
Definition storedToken : M V (option string) :=
  fun w => (Ok (localStorage w !! "token"), w).

Fixpoint first_param (k : string) (params : list (string * string)) : option string :=
  match params with
  | [] => None
  | (k', v) :: rest => if String.eqb k' k then Some v else first_param k rest
  end.

(** [new URLSearchParams(window.location.search).get(k)] *)
Definition urlParam (k : string) : M V (option string) :=
  fun w => (Ok (first_param k (search w)), w).

(** [window.history.replaceState({}, document.title, window.location.pathname)]:
    the address keeps its path and loses its query. *)
Definition replaceState : M V unit :=
  fun w => (Ok tt, World (localStorage w) [] (network w) (events w ++ [ReplaceState]) (vars w)).

(** [goto(path, { replaceState: true })] to a path without a query. *)
Definition goto (path : string) : M V unit :=
  fun w => (Ok tt, World (localStorage w) [] (network w) (events w ++ [Goto path]) (vars w)).

Definition toast_error (key : string) (args : list (string * value)) : M V unit :=
  emit (ToastError key args).

Definition toast_success (key : string) : M V unit := emit (ToastSuccess key).

End Monad.

Declare Scope js_scope.
Delimit Scope js_scope with js.
Notation "x <- m ;; k" := (bind m (fun x => k))
  (at level 100, m at next level, right associativity) : js_scope.
Notation "m ;;; k" := (bind m (fun _ => k))
  (at level 100, right associativity) : js_scope.

(** Truthiness of a [string | null]. *)
Definition present (o : option string) : bool :=
  match o with
  | Some s => negb (String.eqb s "")
  | None => false
  end.

Definition of_nullable (o : option string) : value :=
  match o with Some s => VStr s | None => VNull end.

End Eff.

(** ** src/lib/apis/atlassian/index.ts *)

Module Api.
Import JS Eff.
Local Open Scope js_scope.

(** *** URLSearchParams.prototype.toString

    The application/x-www-form-urlencoded serializer of the URL standard:
    ASCII letters and digits and [* - . _] stay, a space becomes [+], every
    other byte of the UTF-8 encoding becomes [%XX] in upper-case hex. *)
Definition is_digit (c : ascii) : bool := (48 <=? code c)%nat && (code c <=? 57)%nat.
Definition is_upper (c : ascii) : bool := (65 <=? code c)%nat && (code c <=? 90)%nat.
Definition is_lower (c : ascii) : bool := (97 <=? code c)%nat && (code c <=? 122)%nat.

Definition form_safe (c : ascii) : bool :=
  is_digit c || is_upper c || is_lower c
  || Ascii.eqb c "*" || Ascii.eqb c "-" || Ascii.eqb c "." || Ascii.eqb c "_".

Definition hex_digit (upper : bool) (n : nat) : ascii :=
  if (n <? 10)%nat then chr (48 + n)
  else chr ((if upper then 55 else 87) + n).

Definition percent_byte (c : ascii) : string :=
  String "%" (String (hex_digit true (code c / 16)) (String (hex_digit true (code c mod 16)) "")).

Definition form_encode_byte (c : ascii) : string :=
  if form_safe c then String c ""
  else if Ascii.eqb c " " then "+"
  else percent_byte c.

Fixpoint form_encode (s : string) : string :=
  match s with
  | "" => ""
  | String c s' => form_encode_byte c +:+ form_encode s'
  end.

Definition URLSearchParams_toString (params : list (string * string)) : string :=
  join "&" (map (fun kv => form_encode (fst kv) +:+ "=" +:+ form_encode (snd kv)) params).

(** *** Number.prototype.toString(16) on a byte, and String.prototype.padStart *)
Definition toString16 (b : Byte.byte) : string :=
  let n := Byte.to_nat b in
  if (n <? 16)%nat then String (hex_digit false n) ""
  else String (hex_digit false (n / 16)) (String (hex_digit false (n mod 16)) "").

Fixpoint repeat_char (c : ascii) (n : nat) : string :=
  match n with
  | O => ""
  | S k => String c (repeat_char c k)
  end.

Definition padStart (target : nat) (fill : ascii) (s : string) : string :=
  repeat_char fill (target - String.length s) +:+ s.

(** [generateAtlassianOAuthURL] *)
Definition generateAtlassianOAuthURL (clientId redirectUri scope state : string) : string :=
  let params :=
    [ ("audience", "api.atlassian.com");
      ("client_id", clientId);
      ("scope", scope);
      ("redirect_uri", redirectUri);
      ("state", state);
      ("response_type", "code");
      ("prompt", "consent") ] in
  "https://auth.atlassian.com/authorize?" +:+ URLSearchParams_toString params.

(** [generateOAuthState]: [getRandomValues i] is the byte that
    [crypto.getRandomValues] writes into slot [i] of the 32-byte array. *)
Definition generateOAuthState (getRandomValues : nat -> Byte.byte) : string :=
  let array := map getRandomValues (seq 0 32) in
  join "" (map (fun b => padStart 2 "0" (toString16 b)) array).

(** *** The fetch wrappers *)

Section Client.
Variable WEBUI_API_BASE_URL : string.
Context {V : Type}.

Definition ATLASSIAN_BASE_URL : string := WEBUI_API_BASE_URL +:+ "/atlassian".

(** [`Bearer ${token}`]; every caller hands over [localStorage.token]. *)
Definition bearer (token : option string) : string :=
  "Bearer " +:+ match token with Some t => t | None => "undefined" end.

(** [JSON.stringify] leaves out the properties that are [undefined]. *)
Definition stringify (props : list (string * value)) : value :=
  VObj (List.filter (fun kv => match snd kv with VUndefined => false | _ => true end) props).

(** [.then(async (res) => { if (!res.ok) throw await res.json(); return res.json(); })];
    a rejected [fetch] passes [then] over with its [TypeError]. *)
Definition on_fulfilled (r : response) : outcome value :=
  match r with
  | NetworkError => Throw (TypeError "Failed to fetch")
  | Response ok (Some v) => if ok then Ok v else Throw v
  | Response _ None => Throw (SyntaxError "Unexpected token in JSON")
  end.

(** [.catch((err) => { console.error(err); error = err.detail; return null; })]
    gives the pair of [res] and [error]. *)
Definition on_rejected (err : value) : outcome (value * value) :=
  match get err "detail" with
  | Ok detail => Ok (VNull, detail)
  | Throw e => Throw e
  end.

(** The promise chain followed by [if (error) { throw error; } return res;]. *)
Definition settle (r : response) : outcome value :=
  match on_fulfilled r with
  | Ok res => Ok res
  | Throw err =>
      match on_rejected err with
      | Ok (res, error) => if truthy error then Throw error else Ok res
      | Throw e => Throw e
      end
  end.

(** Every exported wrapper has this one body around its own request. *)
Definition call (r : request) : M V value :=
  res <- fetch r ;; lift (settle res).

Definition getAtlassianConnectionStatus (token : option string) : M V value :=
  call (Request "GET" (ATLASSIAN_BASE_URL +:+ "/connection/status") (bearer token) None).

Definition handleAtlassianCallback (token : option string) (callbackData : value) : M V value :=
  call (Request "POST" (ATLASSIAN_BASE_URL +:+ "/connection/callback") (bearer token)
          (Some callbackData)).

Definition disconnectAtlassian (token : option string) : M V value :=
  call (Request "DELETE" (ATLASSIAN_BASE_URL +:+ "/connection") (bearer token) None).

Definition getAtlassianSites (token : option string) : M V value :=
  call (Request "GET" (ATLASSIAN_BASE_URL +:+ "/sites") (bearer token) None).

Definition searchJiraIssues (token : option string) (siteId query maxResults : value) :
    M V value :=
  call (Request "POST" (ATLASSIAN_BASE_URL +:+ "/search/jira") (bearer token)
          (Some (stringify [("site_id", siteId); ("query", query);
                            ("max_results", maxResults)]))).

(** The template literal of the address converts [siteId], whose declared
    type is erased; a conversion that throws rejects the promise before
    anything is sent. *)
Definition getConfluenceSpaces (token : option string) (siteId : value) : M V value :=
  siteId <- lift (toString siteId) ;;
  call (Request "GET"
          (ATLASSIAN_BASE_URL +:+ "/confluence/" +:+ siteId +:+ "/spaces")
          (bearer token) None).

Definition searchConfluencePages (token : option string)
    (siteId query spaceKey maxResults : value) : M V value :=
  call (Request "POST" (ATLASSIAN_BASE_URL +:+ "/search/confluence") (bearer token)
          (Some (stringify [("site_id", siteId); ("query", query);
                            ("space_key", spaceKey); ("max_results", maxResults)]))).

Definition getJiraIssue (token : option string) (siteId issueKey : value) : M V value :=
  siteId <- lift (toString siteId) ;;
  issueKey <- lift (toString issueKey) ;;
  call (Request "GET"
          (ATLASSIAN_BASE_URL +:+ "/jira/" +:+ siteId +:+ "/issue/" +:+ issueKey)
          (bearer token) None).

Definition getConfluenceContent (token : option string) (siteId contentId : value) :
    M V value :=
  siteId <- lift (toString siteId) ;;
  contentId <- lift (toString contentId) ;;
  call (Request "GET"
          (ATLASSIAN_BASE_URL +:+ "/confluence/" +:+ siteId +:+ "/content/" +:+ contentId)
          (bearer token) None).

End Client.

End Api.

(** ** src/lib/components/common/AtlassianConnection.svelte *)

Module Panel.
Import JS Eff Api.
Local Open Scope js_scope.

Record vars : Type := Vars {
  config : value;
  loading : bool;
  connectionStatus : value
}.

Definition set_loading (b : bool) (v : vars) : vars :=
  Vars (config v) b (connectionStatus v).
Definition set_connectionStatus (s : value) (v : vars) : vars :=
  Vars (config v) (loading v) s.

(** The reactive declarations are functions of [config]. *)
Definition atlassianEnabled (cfg : value) : value :=
  or_else (get_opt (get_opt cfg "features") "enable_atlassian_integration") (VBool false).
Definition clientId (cfg : value) : value :=
  or_else (get_opt (get_opt cfg "atlassian") "client_id") (VStr "").
Definition redirectUri (cfg : value) : value :=
  or_else (get_opt (get_opt cfg "atlassian") "redirect_uri") (VStr "").
Definition scope (cfg : value) : value :=
  or_else (get_opt (get_opt cfg "atlassian") "oauth_scope")
    (VStr "read:jira-user read:jira-work read:confluence-content.all offline_access").

Section Component.
Variable WEBUI_API_BASE_URL : string.

Definition loadConnectionStatus : M vars unit :=
  v <- read ;;
  if negb (truthy (atlassianEnabled (config v))) then ret tt
  else
    modify (set_loading true) ;;;
    try_catch_finally
      (token <- storedToken ;;
       status <- getAtlassianConnectionStatus WEBUI_API_BASE_URL token ;;
       modify (set_connectionStatus status))
      (fun _ => toast_error "Failed to load Atlassian connection status" [])
      (modify (set_loading false)).

Definition handleConnect (getRandomValues : nat -> Byte.byte) : M vars unit :=
  v <- read ;;
  if negb (truthy (clientId (config v))) || negb (truthy (redirectUri (config v))) then
    toast_error "Atlassian integration is not properly configured" []
  else
    let state := generateOAuthState getRandomValues in
    setItem "atlassian_oauth_state" state ;;;
    (* [new URLSearchParams({...})] converts the values of the record to
       strings in the order of its keys: client_id, scope, redirect_uri *)
    clientId <- lift (toString (clientId (config v))) ;;
    scope <- lift (toString (scope (config v))) ;;
    redirectUri <- lift (toString (redirectUri (config v))) ;;
    let oauthUrl := generateAtlassianOAuthURL clientId redirectUri scope state in
    emit (Navigate oauthUrl).

Definition handleOAuthCallback : M vars unit :=
  code <- urlParam "code" ;;
  state <- urlParam "state" ;;
  error <- urlParam "error" ;;
  if present error || present code then
    if present error then
      toast_error "OAuth authentication failed: {error}" [("error", of_nullable error)] ;;;
      replaceState
    else if present code && present state then
      (* Skip state verification for now since we're having issues with localStorage *)
      try_catch_finally
        (modify (set_loading true) ;;;
         token <- storedToken ;;
         result <- handleAtlassianCallback WEBUI_API_BASE_URL token
                     (VObj [("code", of_nullable code); ("state", of_nullable state)]) ;;
         toast_success "Atlassian account connected successfully" ;;;
         replaceState ;;;
         loadConnectionStatus)
        (fun _ =>
           toast_error "Failed to connect Atlassian account" [] ;;;
           replaceState)
        (modify (set_loading false))
    else ret tt
  else ret tt.

Definition onMount : M vars unit :=
  handleOAuthCallback ;;; loadConnectionStatus.

End Component.

End Panel.

(** ** The connections settings page (backend/dev.sh, lines 179-320) *)

Module ConnectionsPage.
Import JS Eff Api.
Local Open Scope js_scope.

Record vars : Type := Vars {
  config : value;
  loading : bool
}.

Definition set_loading (b : bool) (v : vars) : vars := Vars (config v) b.

Section Page.
Variable WEBUI_API_BASE_URL : string.

Definition handleOAuthCallback : M vars unit :=
  code <- urlParam "code" ;;
  state <- urlParam "state" ;;
  error <- urlParam "error" ;;
  if present error then
    toast_error "OAuth authentication failed: {error}" [("error", of_nullable error)] ;;;
    goto "/settings/connections"
  else if present code && present state then
    storedState <- getItem "atlassian_oauth_state" ;;
    if negb (bool_decide (state = storedState)) then
      toast_error "OAuth state verification failed" [] ;;;
      goto "/settings/connections"
    else
      removeItem "atlassian_oauth_state" ;;;
      try_catch_finally
        (modify (set_loading true) ;;;
         token <- storedToken ;;
         result <- handleAtlassianCallback WEBUI_API_BASE_URL token
                     (VObj [("code", of_nullable code); ("state", of_nullable state)]) ;;
         toast_success "Atlassian account connected successfully" ;;;
         goto "/settings/connections" ;;;
         emit Reload)
        (fun error =>
           message <- lift (get error "message") ;;
           toast_error "Failed to connect Atlassian account: {error}"
             [("error", or_else message error)] ;;;
           goto "/settings/connections")
        (modify (set_loading false))
  else ret tt.

End Page.

End ConnectionsPage.

(** ** The Atlassian content picker modal (backend/dev.sh, lines 321-844) *)

Module Picker.
Import JS Eff Api.
Local Open Scope js_scope.

Inductive content_type : Type := Jira | Confluence.

(** The component's variables ([sites] and [connected], which only the
    mount hook and the markup use, are left out). *)
Record vars : Type := Vars {
  show : bool;
  loading : bool;
  searchQuery : string;
  selectedSite : value;
  selectedType : content_type;
  searchResults : value;
  noConfluenceAccess : bool;
  confluenceSpaces : value;
  selectedSpace : value;
  loadingSpaces : bool
}.

Definition set_show (b : bool) (v : vars) : vars :=
  Vars b (loading v) (searchQuery v) (selectedSite v) (selectedType v) (searchResults v)
       (noConfluenceAccess v) (confluenceSpaces v) (selectedSpace v) (loadingSpaces v).
Definition set_loading (b : bool) (v : vars) : vars :=
  Vars (show v) b (searchQuery v) (selectedSite v) (selectedType v) (searchResults v)
       (noConfluenceAccess v) (confluenceSpaces v) (selectedSpace v) (loadingSpaces v).
Definition set_searchResults (r : value) (v : vars) : vars :=
  Vars (show v) (loading v) (searchQuery v) (selectedSite v) (selectedType v) r
       (noConfluenceAccess v) (confluenceSpaces v) (selectedSpace v) (loadingSpaces v).
Definition set_noConfluenceAccess (b : bool) (v : vars) : vars :=
  Vars (show v) (loading v) (searchQuery v) (selectedSite v) (selectedType v) (searchResults v)
       b (confluenceSpaces v) (selectedSpace v) (loadingSpaces v).
Definition set_confluenceSpaces (s : value) (v : vars) : vars :=
  Vars (show v) (loading v) (searchQuery v) (selectedSite v) (selectedType v) (searchResults v)
       (noConfluenceAccess v) s (selectedSpace v) (loadingSpaces v).
Definition set_selectedSpace (s : value) (v : vars) : vars :=
  Vars (show v) (loading v) (searchQuery v) (selectedSite v) (selectedType v) (searchResults v)
       (noConfluenceAccess v) (confluenceSpaces v) s (loadingSpaces v).
Definition set_loadingSpaces (b : bool) (v : vars) : vars :=
  Vars (show v) (loading v) (searchQuery v) (selectedSite v) (selectedType v) (searchResults v)
       (noConfluenceAccess v) (confluenceSpaces v) (selectedSpace v) b.

(** *** extractTextFromADF *)

Definition is_block (type : value) : bool :=
  eq_str type "paragraph" || eq_str type "heading".

(** [processNode], threading the closure variable [text]. *)
Fixpoint processNode (node : value) (text : string) {struct node} : outcome string :=
  match node with
  | VUndefined => Throw (TypeError "Cannot read properties of undefined")
  | VNull => Throw (TypeError "Cannot read properties of null")
  | VObj props =>
      let? text :=
        (if truthy (lookup_prop "text" props)
         then let? s := toString (lookup_prop "text" props) in Ok (text +:+ s)
         else Ok text) in
      array_prop
        (fun children =>
           forEach
             (fun child text =>
                let? text := processNode child text in
                Ok (if is_block (lookup_prop "type" props) then text +:+ newline else text))
             children text)
        (Ok text) "content" props
  | _ => Ok text
  end.

Definition extractTextFromADF (adf : value) : outcome string :=
  if negb (truthy adf) then Ok ""
  else
    let? content := get adf "content" in
    if negb (truthy content) then Ok ""
    else
      let? text := processNode adf "" in
      Ok (trim text).

(** *** Rendering a Jira issue *)

Definition jiraDescription (fields : value) : outcome string :=
  let? d := get fields "description" in
  if truthy d then
    match d with
    | VStr s => Ok s
    | _ =>
        let? c := get d "content" in
        if truthy c then extractTextFromADF d else Ok "No description"
    end
  else Ok "No description".

(** Each [${...}] of a template literal is evaluated and converted to a
    string in turn, so a read or a conversion that throws ends the
    rendering there. *)
Definition jiraContent (fullIssue : value) : outcome string :=
  let? key := get fullIssue "key" in
  let? key := toString key in
  let? fields := get fullIssue "fields" in
  let? summary := get fields "summary" in
  let? summary := toString summary in
  let content := "## [" +:+ key +:+ "] " +:+ summary +:+ newline +:+ newline in
  let? status := get fields "status" in
  let? statusName := get status "name" in
  let? statusName := toString statusName in
  let content := content +:+ "**Status:** " +:+ statusName +:+ newline in
  let? issuetype := get fields "issuetype" in
  let? typeName := get issuetype "name" in
  let? typeName := toString typeName in
  let content := content +:+ "**Type:** " +:+ typeName +:+ newline in
  let? assignee := get fields "assignee" in
  let? content :=
    (if truthy assignee then
       let? displayName := get assignee "displayName" in
       let? displayName := toString displayName in
       Ok (content +:+ "**Assignee:** " +:+ displayName +:+ newline)
     else Ok content) in
  let? priority := get fields "priority" in
  let? content :=
    (if truthy priority then
       let? priorityName := get priority "name" in
       let? priorityName := toString priorityName in
       Ok (content +:+ "**Priority:** " +:+ priorityName +:+ newline)
     else Ok content) in
  let? description := jiraDescription fields in
  Ok (content +:+ newline +:+ "### Description" +:+ newline +:+ description).

Definition jiraMetadata (selectedSite fullIssue : value) : outcome value :=
  let? key := get fullIssue "key" in
  let? siteUrl := get selectedSite "url" in
  let? siteUrl := toString siteUrl in
  let? urlKey := get fullIssue "key" in
  let? urlKey := toString urlKey in
  let? fields := get fullIssue "fields" in
  let? summary := get fields "summary" in
  let? siteId := get selectedSite "id" in
  let? siteName := get selectedSite "name" in
  Ok (VObj [ ("type", VStr "atlassian_jira");
             ("key", key);
             ("url", VStr (siteUrl +:+ "/browse/" +:+ urlKey));
             ("title", summary);
             ("siteId", siteId);
             ("siteName", siteName) ]).

(** *** Rendering a Confluence page *)

(** [bodyContent.replace(/<[^>]*>/g, '').replace(/&nbsp;/g, ' ')
    .replace(/&amp;/g, '&').replace(/&lt;/g, '<').replace(/&gt;/g, '>')] *)
Definition plainText (bodyContent : string) : string :=
  replaceAll "&gt;" ">"
    (replaceAll "&lt;" "<"
       (replaceAll "&amp;" "&"
          (replaceAll "&nbsp;" " "
             (stripTags bodyContent)))).

Definition confluenceBody (fullPage : value) : outcome value :=
  let? body := get fullPage "body" in
  if truthy body then
    let? storage := get body "storage" in
    let? storageValue := (if truthy storage then get storage "value" else Ok storage) in
    if truthy storage && truthy storageValue then Ok storageValue
    else
      let? v := get body "value" in
      if truthy v then Ok v else Ok (VStr "")
  else Ok (VStr "").

Definition renderBody (bodyContent : value) : outcome string :=
  if truthy bodyContent then
    match bodyContent with
    | VStr s => Ok (plainText s)
    | _ => Throw (TypeError "bodyContent.replace is not a function")
    end
  else Ok "No content available".

Section Component.
Variable WEBUI_API_BASE_URL : string.
(** [new Date(d).toLocaleDateString()] for a primitive [d]: the text
    depends on the locale and the time zone (an unreadable date gives
    ["Invalid Date"]). *)
Variable toLocaleDateString : value -> string.

Definition confluenceContent (fullPage : value) : outcome string :=
  let? title := get fullPage "title" in
  let? title := toString title in
  let content := "## " +:+ title +:+ newline +:+ newline in
  let? space := get fullPage "space" in
  let? content :=
    (if truthy space then
       let? spaceName := get space "name" in
       let? shown := (if truthy spaceName then Ok spaceName else get space "key") in
       let? shown := toString shown in
       Ok (content +:+ "**Space:** " +:+ shown +:+ newline)
     else Ok content) in
  let? version := get fullPage "version" in
  let? content :=
    (if truthy version then
       let? when := get version "when" in
       let? updateDate := (if truthy when then Ok when else get version "createdAt") in
       if truthy updateDate
       then
         let? date := toPrimitive updateDate in
         Ok (content +:+ "**Last Updated:** " +:+ toLocaleDateString date
               +:+ newline +:+ newline)
       else Ok content
     else Ok content) in
  let? bodyContent := confluenceBody fullPage in
  let? rendered := renderBody bodyContent in
  Ok (content +:+ rendered).

Definition confluenceMetadata (selectedSite fullPage : value) : outcome value :=
  let? id := get fullPage "id" in
  let? links := get fullPage "_links" in
  let? webui := (if truthy links then get links "webui" else Ok links) in
  let? url :=
    (if truthy links && truthy webui
     then
       let? siteUrl := get selectedSite "url" in
       let? siteUrl := toString siteUrl in
       let? webui := toString webui in
       Ok (siteUrl +:+ "/wiki" +:+ webui)
     else
       let? siteUrl := get selectedSite "url" in
       let? siteUrl := toString siteUrl in
       let? space := get fullPage "space" in
       let? spaceKey := toString (or_else (get_opt space "key") (VStr "SPACE")) in
       let? pageId := get fullPage "id" in
       let? pageId := toString pageId in
       Ok (siteUrl +:+ "/wiki/spaces/" +:+ spaceKey +:+ "/pages/" +:+ pageId)) in
  let? title := get fullPage "title" in
  let? siteId := get selectedSite "id" in
  let? siteName := get selectedSite "name" in
  Ok (VObj [ ("type", VStr "atlassian_confluence");
             ("id", id);
             ("url", VStr url);
             ("title", title);
             ("siteId", siteId);
             ("siteName", siteName) ]).

Definition selectItem (item : value) : M vars unit :=
  modify (set_loading true) ;;;
  try_catch_finally
    (v <- read ;;
     token <- storedToken ;;
     siteId <- lift (get (selectedSite v) "id") ;;
     selection <-
       match selectedType v with
       | Jira =>
           key <- lift (get item "key") ;;
           fullIssue <- getJiraIssue WEBUI_API_BASE_URL token siteId key ;;
           content <- lift (jiraContent fullIssue) ;;
           metadata <- lift (jiraMetadata (selectedSite v) fullIssue) ;;
           ret (VObj [("content", VStr content); ("metadata", metadata)])
       | Confluence =>
           id <- lift (get item "id") ;;
           fullPage <- getConfluenceContent WEBUI_API_BASE_URL token siteId id ;;
           content <- lift (confluenceContent fullPage) ;;
           metadata <- lift (confluenceMetadata (selectedSite v) fullPage) ;;
           ret (VObj [("content", VStr content); ("metadata", metadata)])
       end ;;
     emit (OnSelect selection) ;;;
     modify (set_show false))
    (fun _ => toast_error "Failed to fetch content" [])
    (modify (set_loading false)).

Definition loadConfluenceSpaces : M vars unit :=
  v <- read ;;
  if negb (truthy (selectedSite v))
     || match selectedType v with Confluence => false | Jira => true end
  then ret tt
  else
    modify (set_loadingSpaces true) ;;;
    modify (set_confluenceSpaces (VArr [])) ;;;
    modify (set_selectedSpace VNull) ;;;
    try_catch_finally
      (token <- storedToken ;;
       siteId <- lift (get (selectedSite v) "id") ;;
       result <- getConfluenceSpaces WEBUI_API_BASE_URL token siteId ;;
       error <- lift (get result "error") ;;
       if eq_str error "no_access" then
         modify (set_confluenceSpaces (VArr [])) ;;;
         modify (set_selectedSpace VNull)
       else
         results <- lift (get result "results") ;;
         modify (set_confluenceSpaces (or_else results (VArr []))) ;;;
         modify (set_selectedSpace VNull))
      (fun _ =>
         modify (set_confluenceSpaces (VArr [])) ;;;
         modify (set_selectedSpace VNull))
      (modify (set_loadingSpaces false)).

Definition performSearch : M vars unit :=
  v <- read ;;
  if negb (truthy (VStr (trim (searchQuery v)))) || negb (truthy (selectedSite v))
  then ret tt
  else
    modify (set_loading true) ;;;
    modify (set_searchResults (VArr [])) ;;;
    try_catch_finally
      (token <- storedToken ;;
       siteId <- lift (get (selectedSite v) "id") ;;
       match selectedType v with
       | Jira =>
           result <- searchJiraIssues WEBUI_API_BASE_URL token siteId
                       (VStr (searchQuery v)) (VNum "20") ;;
           issues <- lift (get result "issues") ;;
           modify (set_searchResults (or_else issues (VArr [])))
       | Confluence =>
           result <- searchConfluencePages WEBUI_API_BASE_URL token siteId
                       (VStr (searchQuery v)) (get_opt (selectedSpace v) "key") (VNum "20") ;;
           error <- lift (get result "error") ;;
           if eq_str error "no_access" then
             modify (set_noConfluenceAccess true) ;;;
             modify (set_searchResults (VArr []))
           else
             modify (set_noConfluenceAccess false) ;;;
             results <- lift (get result "results") ;;
             modify (set_searchResults (or_else results (VArr [])))
       end)
      (fun _ => toast_error "Search failed" [])
      (modify (set_loading false)).

End Component.

End Picker.

(** ** Reference notions used to state the properties *)

Module Spec.
Import JS Eff Api.

Fixpoint all_chars (P : ascii -> bool) (s : string) : bool :=
  match s with
  | "" => true
  | String c s' => P c && all_chars P s'
  end.

Definition lower_hex (c : ascii) : bool :=
  is_digit c || ((97 <=? code c)%nat && (code c <=? 102)%nat).

Definition hex_value (c : ascii) : nat :=
  if is_digit c then code c - 48
  else if is_upper c then code c - 55
  else code c - 87.

(** Reads a hex string back, two digits a byte. *)
Fixpoint unhex (s : string) : list (option Byte.byte) :=
  match s with
  | String a (String b rest) => Byte.of_nat (16 * hex_value a + hex_value b) :: unhex rest
  | _ => []
  end.



Fixpoint count_events (P : event -> bool) (l : list event) : nat :=
  match l with
  | [] => 0
  | e :: l' => (if P e then 1 else 0) + count_events P l'
  end.

Definition is_fetch (e : event) : bool :=
  match e with Fetch _ => true | _ => false end.

Definition is_removeItem (k : string) (e : event) : bool :=
  match e with RemoveItem k' => String.eqb k' k | _ => false end.

(** Two hex digits for a byte, as [generateOAuthState] prints each one. *)
Definition hex2 (b : Byte.byte) : string := padStart 2 "0" (toString16 b).

(** *** Sample data for the worked examples *)

Definition sample_config : value :=
  VObj [("features", VObj [("enable_atlassian_integration", VBool true)]);
        ("atlassian",
         VObj [("client_id", VStr "abc");
               ("redirect_uri", VStr "http://localhost:5173/settings/connections")])].

Definition quiet_network : list event -> request -> response :=
  fun _ _ => NetworkError.

Definition stale_world : world Panel.vars :=
  World {["atlassian_oauth_state" := "stale"]} [] quiet_network []
    (Panel.Vars sample_config false VNull).

(** A server that accepts every request. *)
Definition accepting_network : list event -> request -> response :=
  fun _ _ => Response true (Some (VObj [("detail", VStr "connected")])).

(** The browser comes back from Atlassian with [?code=C&state=S2] while
    [localStorage] holds the state [S] of the attempt that was started. *)
Definition forged_return {V} (v : V) : world V :=
  World {["atlassian_oauth_state" := "S"; "token" := "session-token"]}
    [("code", "C"); ("state", "S2")] accepting_network [] v.

(** The same page with another query string. *)
Definition with_search {V} (q : list (string * string)) (w : world V) : world V :=
  World (localStorage w) q (network w) (events w) (vars w).

Definition is_toast_error (key : string) (e : event) : bool :=
  match e with ToastError k _ => String.eqb k key | _ => false end.

(** A server whose every answer is the soft payload [{error: "no_access"}]
    on a 2xx status. *)
Definition no_access_network : list event -> request -> response :=
  fun _ _ => Response true (Some (VObj [("error", VStr "no_access")])).

Definition sample_site : value :=
  VObj [("id", VStr "site-1"); ("name", VStr "Acme");
        ("url", VStr "https://acme.atlassian.net")].

(** The picker with a site chosen and a query typed. *)
Definition picker_vars (type : Picker.content_type) (query : string) : Picker.vars :=
  Picker.Vars true false query sample_site type (VArr []) false (VArr []) VNull false.

(** A server that answers every request with the JSON document [v]. *)
Definition serving (v : value) : list event -> request -> response :=
  fun _ _ => Response true (Some v).


Definition issue_unassigned : value :=
  VObj [("key", VStr "OPS-7");
        ("fields", VObj [("summary", VStr "Rotate the keys");
                         ("status", VObj [("name", VStr "Open")]);
                         ("issuetype", VObj [("name", VStr "Task")]);
                         ("assignee", VNull)])].

(** *** Rich documents

    An ADF document as a tree: a text leaf, or a node of some type with
    its children.  [to_value] is the JSON the upstream API sends for it. *)
Inductive adf : Type :=
| Text (s : string)
| Node (type : string) (children : list adf).

Fixpoint to_value (d : adf) : value :=
  match d with
  | Text s => VObj [("type", VStr "text"); ("text", VStr s)]
  | Node type children =>
      VObj [("type", VStr type); ("content", VArr (map to_value children))]
  end.

Definition block_type (type : string) : bool :=
  String.eqb type "paragraph" || String.eqb type "heading".

Fixpoint concat_strings (l : list string) : string :=
  match l with
  | [] => ""
  | s :: l' => s +:+ concat_strings l'
  end.

(** The text of a document as the specification words it: the leaf texts
    in document order, with one newline after the children of each
    paragraph or heading; [adf_text_spec] trims the result. *)
Fixpoint spec_text (d : adf) : string :=
  match d with
  | Text s => s
  | Node type children =>
      concat_strings (map spec_text children)
        +:+ (if block_type type then newline else "")
  end.

Definition adf_text_spec (d : adf) : string := trim (spec_text d).

(** The text [processNode] gathers: inside a paragraph or heading the
    newline follows every child. *)
Fixpoint gathered_text (d : adf) : string :=
  match d with
  | Text s => s
  | Node type children =>
      concat_strings
        (map (fun c => gathered_text c +:+ (if block_type type then newline else ""))
           children)
  end.


(** Every paragraph and heading of the document has exactly one child. *)
Fixpoint single_child_blocks (d : adf) : bool :=
  match d with
  | Text _ => true
  | Node type children =>
      (if block_type type then Nat.eqb (length children) 1 else true)
      && forallb single_child_blocks children
  end.

(** Induction over documents, with the hypothesis on every child. *)
Fixpoint adf_children_ind (P : adf -> Prop)
    (leaf : forall s, P (Text s))
    (node : forall type children, Forall P children -> P (Node type children))
    (d : adf) : P d :=
  match d with
  | Text s => leaf s
  | Node type children =>
      node type children
        ((fix all (l : list adf) : Forall P l :=
            match l with
            | [] => List.Forall_nil P
            | c :: l' => List.Forall_cons P c l' (adf_children_ind P leaf node c) (all l')
            end) children)
  end.

(** A paragraph of two runs, as the editor produces for "Hello *world*". *)
Definition two_run_paragraph : adf :=
  Node "doc" [Node "paragraph" [Text "Hello "; Text "world"]].

(** *** Page bodies

    Decoding the four named entities in one pass from the left: what a
    reader of the markup sees.  [skip] counts the bytes of the entity being
    passed over. *)
Fixpoint decode_from (skip : nat) (s : string) : string :=
  match s with
  | "" => ""
  | String c s' =>
      match skip with
      | S k => decode_from k s'
      | O =>
          if String.prefix "&nbsp;" s then String " " (decode_from 5 s')
          else if String.prefix "&amp;" s then String "&" (decode_from 4 s')
          else if String.prefix "&lt;" s then String "<" (decode_from 3 s')
          else if String.prefix "&gt;" s then String ">" (decode_from 3 s')
          else String c (decode_from 0 s')
      end
  end.

Definition decode_entities (s : string) : string := decode_from 0 s.

(** The page text as the specification words it: tags removed, then the
    four entities decoded. *)
Definition plainText_spec (bodyContent : string) : string :=
  decode_entities (stripTags bodyContent).

(** A match of [<[^>]*>] somewhere in [s]. *)
Fixpoint has_tag (s : string) : bool :=
  match s with
  | "" => false
  | String c s' => (Ascii.eqb c "<" && contains_char ">" s') || has_tag s'
  end.

(** The four replacements of [plainText], in their order. *)
Definition replaced (t : string) : string :=
  replaceAll "&gt;" ">" (replaceAll "&lt;" "<" (replaceAll "&amp;" "&"
    (replaceAll "&nbsp;" " " t))).

(** [pat] occurs somewhere in [s]. *)
Fixpoint occurs (pat s : string) : bool :=
  match s with
  | "" => String.prefix pat ""
  | String _ s' => String.prefix pat s || occurs pat s'
  end.

(** No [&amp;] of the text is followed by [lt;] or [gt;]. *)
Definition no_escaped_angle (s : string) : bool :=
  negb (occurs "&amp;lt;" s) && negb (occurs "&amp;gt;" s).

Definition page_without_body : value :=
  VObj [("id", VStr "42"); ("title", VStr "Runbook")].

End Spec.

(** ** The rest of AtlassianConnection.svelte (lines 64-103) *)

Module PanelActions.
Import JS Eff Api.
Local Open Scope js_scope.

(** [s.includes(pat)] *)
Fixpoint includes (s pat : string) : bool :=
  match s with
  | "" => String.prefix pat ""
  | String _ s' => String.prefix pat s || includes s' pat
  end.

(** The site record of the [AtlassianSiteInfo] interface. *)
Record AtlassianSiteInfo : Type := Site {
  id : string;
  name : string;
  url : string;
  scopes : list string;
  avatar_url : option string
}.

(** The four icon literals, byte for byte as the source file has them. *)
Definition bytes (l : list nat) : string := string_of_list_ascii (map chr l).
Definition icon_both : string := bytes [195; 176; 197; 184; 194; 162].
Definition icon_jira : string :=
  bytes [195; 176; 197; 184; 226; 128; 156; 226; 128; 185].
Definition icon_confluence : string :=
  bytes [195; 176; 197; 184; 226; 128; 156; 226; 128; 158].
Definition icon_unknown : string :=
  bytes [195; 176; 197; 184; 226; 128; 157; 226; 128; 148].

(** [getSiteIcon]; [some] is [existsb]. *)
Definition getSiteIcon (site : AtlassianSiteInfo) : string :=
  let hasJiraScopes := existsb (fun scope => includes scope "jira") (scopes site) in
  let hasConfluenceScopes :=
    existsb (fun scope => includes scope "confluence") (scopes site) in
  if hasJiraScopes && hasConfluenceScopes then icon_both
  else if hasJiraScopes then icon_jira
  else if hasConfluenceScopes then icon_confluence
  else icon_unknown.

Section Actions.
Variable WEBUI_API_BASE_URL : string.

(** [handleDisconnect]; [confirmed] is the answer the user gives to
    [confirm(...)]. *)
Definition handleDisconnect (confirmed : bool) : M Panel.vars unit :=
  if negb confirmed then ret tt
  else
    modify (Panel.set_loading true) ;;;
    try_catch_finally
      (token <- storedToken ;;
       _ <- disconnectAtlassian WEBUI_API_BASE_URL token ;;
       modify (Panel.set_connectionStatus
                 (VObj [("connected", VBool false); ("sites", VArr [])])) ;;;
       toast_success "Atlassian account disconnected successfully")
      (fun _ => toast_error "Failed to disconnect Atlassian account" [])
      (modify (Panel.set_loading false)).

End Actions.

End PanelActions.

(** ** The picker's selectors (backend/dev.sh, lines 647-674) *)

Module PickerSelectors.
Import JS Eff Api.
Local Open Scope js_scope.

Definition set_selectedSite (s : value) (v : Picker.vars) : Picker.vars :=
  Picker.Vars (Picker.show v) (Picker.loading v) (Picker.searchQuery v) s
    (Picker.selectedType v) (Picker.searchResults v) (Picker.noConfluenceAccess v)
    (Picker.confluenceSpaces v) (Picker.selectedSpace v) (Picker.loadingSpaces v).

Definition set_selectedType (t : Picker.content_type) (v : Picker.vars) : Picker.vars :=
  Picker.Vars (Picker.show v) (Picker.loading v) (Picker.searchQuery v)
    (Picker.selectedSite v) t (Picker.searchResults v) (Picker.noConfluenceAccess v)
    (Picker.confluenceSpaces v) (Picker.selectedSpace v) (Picker.loadingSpaces v).

Section Selectors.
Variable WEBUI_API_BASE_URL : string.

(** The site [<select bind:value={selectedSite} on:change=...>]: the
    binding stores the chosen site, then the handler runs. *)
Definition onSiteChange (site : value) : M Picker.vars unit :=
  modify (set_selectedSite site) ;;;
  v <- read ;;
  match Picker.selectedType v with
  | Picker.Confluence => Picker.loadConfluenceSpaces WEBUI_API_BASE_URL
  | Picker.Jira => ret tt
  end.

(** The type [<select bind:value={selectedType} on:change=...>]. *)
Definition onTypeChange (type : Picker.content_type) : M Picker.vars unit :=
  modify (set_selectedType type) ;;;
  modify (Picker.set_noConfluenceAccess false) ;;;
  modify (Picker.set_searchResults (VArr [])) ;;;
  v <- read ;;
  match Picker.selectedType v with
  | Picker.Confluence => Picker.loadConfluenceSpaces WEBUI_API_BASE_URL
  | Picker.Jira => ret tt
  end.

End Selectors.

End PickerSelectors.

(** ** Reading a query string back *)

Module Query.
Import JS Eff Api.

Definition is_hex (c : ascii) : bool :=
  is_digit c || ((65 <=? code c)%nat && (code c <=? 70)%nat)
  || ((97 <=? code c)%nat && (code c <=? 102)%nat).

(** The application/x-www-form-urlencoded decoding of one name or value:
    [+] is a space, [%XX] with two hex digits is a byte, any other [%]
    stands for itself. *)
Fixpoint percent_decode (s : string) : string :=
  match s with
  | "" => ""
  | String c rest =>
      if Ascii.eqb c "+" then String " " (percent_decode rest)
      else if Ascii.eqb c "%" then
        match rest with
        | String a (String b rest') =>
            if is_hex a && is_hex b
            then String (chr (16 * Spec.hex_value a + Spec.hex_value b))
                   (percent_decode rest')
            else String c (percent_decode rest)
        | _ => String c (percent_decode rest)
        end
      else String c (percent_decode rest)
  end.

(** The pieces of [s] between the occurrences of [sep]. *)
Fixpoint split_on (sep : ascii) (s : string) : list string :=
  match s with
  | "" => [""]
  | String c rest =>
      if Ascii.eqb c sep then "" :: split_on sep rest
      else
        match split_on sep rest with
        | piece :: pieces => String c piece :: pieces
        | [] => [String c ""]
        end
  end.

(** [s] cut at its first [sep]: what is before, and what is after if
    there is one. *)
Fixpoint cut_at (sep : ascii) (s : string) : string * option string :=
  match s with
  | "" => ("", None)
  | String c rest =>
      if Ascii.eqb c sep then ("", Some rest)
      else let '(before, after) := cut_at sep rest in (String c before, after)
  end.

(** [new URLSearchParams(query)] as a list of pairs: the parser of the URL
    standard on a query without its leading [?]. *)
Definition URLSearchParams_parse (query : string) : list (string * string) :=
  flat_map
    (fun piece =>
       if String.eqb piece "" then []
       else
         let '(name, value) := cut_at "=" piece in
         [(percent_decode name,
           percent_decode (match value with Some v => v | None => "" end))])
    (split_on "&" query).

(** What follows the first [?] of an address. *)
Definition query_of (href : string) : string :=
  match snd (cut_at "?" href) with Some q => q | None => "" end.

End Query.

(** ** What a selection hands over, read through the properties *)

Module Selection.
Import JS Eff Api.

(** The body that is rendered: the storage value of the v1 format when
    there is one, else the value of the v2 format, else nothing. *)
Definition chosen_body (fullPage : value) : value :=
  let body := get_opt fullPage "body" in
  let storage := get_opt body "storage" in
  if truthy body then
    if truthy storage && truthy (get_opt storage "value") then get_opt storage "value"
    else if truthy (get_opt body "value") then get_opt body "value"
    else VStr ""
  else VStr "".

(** The address of a page: its [webui] link under [/wiki] when it has
    one, else built from the space key (or [SPACE]) and the page id; each
    part converted to a string as the template literal does. *)
Definition page_url (site fullPage : value) : outcome string :=
  let links := get_opt fullPage "_links" in
  let? siteUrl := toString (get_opt site "url") in
  if truthy links && truthy (get_opt links "webui")
  then
    let? webui := toString (get_opt links "webui") in
    Ok (siteUrl +:+ "/wiki" +:+ webui)
  else
    let? spaceKey :=
      toString (or_else (get_opt (get_opt fullPage "space") "key") (VStr "SPACE")) in
    let? pageId := toString (get_opt fullPage "id") in
    Ok (siteUrl +:+ "/wiki/spaces/" +:+ spaceKey +:+ "/pages/" +:+ pageId).

Definition page_metadata (site fullPage : value) (url : string) : value :=
  VObj [ ("type", VStr "atlassian_confluence");
         ("id", get_opt fullPage "id");
         ("url", VStr url);
         ("title", get_opt fullPage "title");
         ("siteId", get_opt site "id");
         ("siteName", get_opt site "name") ].

Definition issue_metadata (site fullIssue : value) (siteUrl key : string) : value :=
  VObj [ ("type", VStr "atlassian_jira");
         ("key", get_opt fullIssue "key");
         ("url", VStr (siteUrl +:+ "/browse/" +:+ key));
         ("title", get_opt (get_opt fullIssue "fields") "summary");
         ("siteId", get_opt site "id");
         ("siteName", get_opt site "name") ].

Definition selection (content : string) (metadata : value) : value :=
  VObj [("content", VStr content); ("metadata", metadata)].

Definition sample_page : value :=
  VObj [ ("id", VStr "42"); ("title", VStr "Runbook");
         ("space", VObj [("key", VStr "OPS")]);
         ("version", VObj [("createdAt", VStr "2025-01-01T09:30:00.000Z")]);
         ("body", VObj [("storage", VObj [("value", VStr "<p>Restart &amp; check</p>")])]) ].

(** An issue whose summary is an object with a [toString] property of
    its own, which no template literal can print. *)
Definition issue_with_unprintable_summary : value :=
  VObj [("key", VStr "OPS-8");
        ("fields", VObj [("summary", VObj [("toString", VStr "x")]);
                         ("status", VObj [("name", VStr "Open")]);
                         ("issuetype", VObj [("name", VStr "Task")])])].

End Selection.

(** * Properties *)

Import JS Eff Api Spec.

(** ** Strings *)

Lemma append_nil_l (s : string) : "" +:+ s = s.
Proof. reflexivity. Qed.

Lemma append_cons (c : ascii) (s t : string) : String c s +:+ t = String c (s +:+ t).
Proof. reflexivity. Qed.

Ltac string_step := rewrite ?append_nil_l, ?append_cons.

Lemma append_empty_r (s : string) : s +:+ "" = s.
Proof. induction s as [|c s IH]; string_step; [reflexivity | now rewrite IH]. Qed.

Lemma append_assoc (a b c : string) : (a +:+ b) +:+ c = a +:+ (b +:+ c).
Proof. induction a as [|x a IH]; string_step; [reflexivity | now rewrite IH]. Qed.

Lemma length_append (a b : string) :
  String.length (a +:+ b) = String.length a + String.length b.
Proof. induction a as [|x a IH]; string_step; simpl; [reflexivity | now rewrite IH]. Qed.

Lemma all_chars_append P (a b : string) :
  all_chars P (a +:+ b) = all_chars P a && all_chars P b.
Proof.
  induction a as [|x a IH]; string_step; simpl; [reflexivity |].
  rewrite IH. now rewrite andb_assoc.
Qed.

Lemma join_empty_cons (p : string) (rest : list string) :
  join "" (p :: rest) = p +:+ join "" rest.
Proof. destruct rest; simpl; [now rewrite append_empty_r | reflexivity]. Qed.

(** Unfolds the primitives of the effect monad. *)
Ltac unfold_js :=
  unfold toast_error, toast_success in *;
  unfold bind, ret, throw, lift, try_catch_finally, emit, read, modify, fetch,
    getItem, setItem, removeItem, storedToken, urlParam, replaceState, goto in *.

Ltac world_simpl :=
  cbn [localStorage search network events vars fst snd negb andb orb].

(** ** The OAuth state token *)

Lemma hex2_shape (b : Byte.byte) :
  String.length (hex2 b) = 2 /\ all_chars lower_hex (hex2 b) = true.
Proof. destruct b; split; reflexivity. Qed.

Lemma unhex_hex2 (b : Byte.byte) (s : string) :
  unhex (hex2 b +:+ s) = Some b :: unhex s.
Proof. destruct b; reflexivity. Qed.

Lemma hex_bytes_length (l : list Byte.byte) :
  String.length (join "" (map hex2 l)) = 2 * length l.
Proof.
  induction l as [|b l IH]; [reflexivity |].
  cbn [map]. rewrite join_empty_cons, length_append, IH.
  destruct (hex2_shape b) as [-> _]. simpl. lia.
Qed.

Lemma hex_bytes_chars (l : list Byte.byte) :
  all_chars lower_hex (join "" (map hex2 l)) = true.
Proof.
  induction l as [|b l IH]; [reflexivity |].
  cbn [map]. rewrite join_empty_cons, all_chars_append, IH.
  now destruct (hex2_shape b) as [_ ->].
Qed.

Lemma unhex_hex_bytes (l : list Byte.byte) :
  unhex (join "" (map hex2 l)) = map Some l.
Proof.
  induction l as [|b l IH]; [reflexivity |].
  cbn [map]. now rewrite join_empty_cons, unhex_hex2, IH.
Qed.

Lemma generateOAuthState_bytes (rnd : nat -> Byte.byte) :
  generateOAuthState rnd = join "" (map hex2 (map rnd (seq 0 32))).
Proof. reflexivity. Qed.

Lemma map_seq_ext {A} (f g : nat -> A) (n start : nat) :
  map f (seq start n) = map g (seq start n) ->
  forall i, (start <= i < start + n)%nat -> f i = g i.
Proof.
  revert start. induction n as [|n IH]; intros start Heq i Hi; [lia |].
  simpl in Heq. injection Heq as Hhd Htl.
  destruct (Nat.eq_dec i start) as [-> | Hne]; [exact Hhd |].
  apply (IH (S start) Htl). lia.
Qed.

Lemma generateOAuthState_inj (r1 r2 : nat -> Byte.byte) :
  generateOAuthState r1 = generateOAuthState r2 ->
  forall i, (i < 32)%nat -> r1 i = r2 i.
Proof.
  intros Heq i Hi.
  apply (f_equal unhex) in Heq.
  rewrite !generateOAuthState_bytes, !unhex_hex_bytes, !map_map in Heq.
  assert (H := map_seq_ext (fun x => Some (r1 x)) (fun x => Some (r2 x)) 32 0 Heq i).
  assert (Hs : Some (r1 i) = Some (r2 i)) by (apply H; lia).
  now injection Hs.
Qed.

(** C8. Every value of [generateOAuthState] is the lower-case hex text of
    the 32 bytes drawn from [crypto.getRandomValues]: 64 characters, from
    which the 32 bytes (256 bits) can be read back; and when the
    integration is configured, [handleConnect] writes that value into the
    [localStorage] slot [atlassian_oauth_state], replacing what was there
    and touching no other slot, and only then sets [window.location.href]
    to the authorization address carrying the same state.  (Should one of
    the configured values fail to convert to a string, the state has been
    stored all the same, and the failure is thrown with no redirect
    issued.) *)
Theorem connect_stores_fresh_state
    (getRandomValues : nat -> Byte.byte) (w : world Panel.vars) :
  truthy (Panel.clientId (Panel.config (vars w))) = true ->
  truthy (Panel.redirectUri (Panel.config (vars w))) = true ->
  let state := generateOAuthState getRandomValues in
  let cfg := Panel.config (vars w) in
  let stored := <["atlassian_oauth_state" := state]> (localStorage w) in
  let oauthUrl :=
    let? clientId := toString (Panel.clientId cfg) in
    let? scope := toString (Panel.scope cfg) in
    let? redirectUri := toString (Panel.redirectUri cfg) in
    Ok (generateAtlassianOAuthURL clientId redirectUri scope state) in
  String.length state = 64 /\
  all_chars lower_hex state = true /\
  unhex state = map (fun i => Some (getRandomValues i)) (seq 0 32) /\
  Panel.handleConnect getRandomValues w =
    match oauthUrl with
    | Ok href =>
        (Ok tt,
         World stored (search w) (network w)
           (events w ++ [SetItem "atlassian_oauth_state" state; Navigate href])
           (vars w))
    | Throw e =>
        (Throw e,
         World stored (search w) (network w)
           (events w ++ [SetItem "atlassian_oauth_state" state])
           (vars w))
    end.
Proof.
  intros Hid Huri state cfg stored oauthUrl. subst state cfg stored oauthUrl.
  rewrite generateOAuthState_bytes.
  split; [now rewrite hex_bytes_length, !length_map, length_seq |].
  split; [apply hex_bytes_chars |].
  split; [now rewrite unhex_hex_bytes, map_map |].
  unfold Panel.handleConnect, bind, read, setItem, emit, lift.
  rewrite Hid, Huri. cbn [negb orb events localStorage search network vars].
  destruct (toString (Panel.clientId (Panel.config (vars w)))); [| reflexivity].
  destruct (toString (Panel.scope (Panel.config (vars w)))); [| reflexivity].
  destruct (toString (Panel.redirectUri (Panel.config (vars w)))); [| reflexivity].
  cbn [events localStorage search network vars].
  rewrite <- app_assoc. reflexivity.
Qed.

Lemma connect_stores_fresh_state_witness :
  exists w',
    Panel.handleConnect (fun _ => Byte.x2a) stale_world = (Ok tt, w') /\
    localStorage w' !! "atlassian_oauth_state" =
      Some "2a2a2a2a2a2a2a2a2a2a2a2a2a2a2a2a2a2a2a2a2a2a2a2a2a2a2a2a2a2a2a2a".
Proof.
  destruct (connect_stores_fresh_state (fun _ => Byte.x2a) stale_world eq_refl eq_refl)
    as (_ & _ & _ & Hrun).
  eexists. split; [exact Hrun |].
  cbn [localStorage]. apply lookup_insert_eq.
Defined.

(** ** The authorization address *)






(** ** The fetch wrappers *)

Section ClientProps.
Variable WEBUI_API_BASE_URL : string.
Context {V : Type}.

(** Every wrapper sends its request once and settles on the answer. *)
Lemma call_run (r : request) (w : world V) :
  call r w =
    (settle (network w (events w) r),
     World (localStorage w) (search w) (network w) (events w ++ [Fetch r]) (vars w)).
Proof. reflexivity. Qed.

Lemma call_one_fetch (r : request) (w : world V) :
  events (snd (call r w)) = events w ++ [Fetch r]
  /\ count_events is_fetch [Fetch r] = 1.
Proof. now rewrite call_run. Qed.

(** A non-2xx answer whose JSON body has a non-empty [detail] is thrown as
    that detail. *)
Lemma settle_error_detail (body detail : value) :
  get body "detail" = Ok detail -> truthy detail = true ->
  settle (Response false (Some body)) = Throw detail.
Proof.
  intros Hget Htrue. unfold settle, on_fulfilled, on_rejected.
  now rewrite Hget, Htrue.
Qed.

(** A 2xx answer with a JSON body is returned as it is. *)
Lemma settle_success (body : value) : settle (Response true (Some body)) = Ok body.
Proof. reflexivity. Qed.

(** What is thrown by a wrapper is never [null] or [undefined]. *)
Lemma settle_throw_not_nullish (r : response) (e : value) :
  settle r = Throw e -> nullish e = false.
Proof.
  unfold settle, on_fulfilled, on_rejected.
  destruct r as [|ok [body|]]; cbn.
  - discriminate.
  - destruct ok; [discriminate |].
    destruct body; cbn; try discriminate; try (intros [= <-]; reflexivity).
    destruct (truthy (lookup_prop "detail" props)) eqn:Ht; [|discriminate].
    intros [= <-]. now destruct (lookup_prop "detail" props).
  - discriminate.
Qed.

End ClientProps.

(** C3, as the code has it: when [fetch] itself fails, and also when a
    non-2xx answer carries no [detail], each wrapper returns [null] to its
    caller instead of raising; the one request is still sent exactly once. *)
Theorem network_failure_returns_null
    (base : string) (token : option string) (ls : gmap string string)
    (q : list (string * string)) (evs : list event) :
  let w := World ls q quiet_network evs tt in
  let returns_null (m : M unit value) :=
    fst (m w) = Ok VNull /\
    exists r, events (snd (m w)) = evs ++ [Fetch r] in
  returns_null (getAtlassianConnectionStatus base token) /\
  returns_null (handleAtlassianCallback base token
                  (VObj [("code", VStr "c"); ("state", VStr "s")])) /\
  returns_null (disconnectAtlassian base token) /\
  returns_null (getAtlassianSites base token) /\
  returns_null (searchJiraIssues base token (VStr "site") (VStr "q") (VNum "20")) /\
  returns_null (searchConfluencePages base token (VStr "site") (VStr "q") VUndefined (VNum "20")) /\
  returns_null (getJiraIssue base token (VStr "site") (VStr "K-1")) /\
  returns_null (getConfluenceContent base token (VStr "site") (VStr "42")) /\
  settle (Response false (Some (VObj [("error", VStr "gone")]))) = Ok VNull.
Proof.
  cbv zeta. repeat split; eauto.
Qed.

(** The callers are written for a failure that is raised: with the server
    unreachable, [loadConnectionStatus] stores the [null] it is handed as
    the connection status and its failure toast is never shown. *)
Lemma loadConnectionStatus_unreachable (base : string) :
  let w' := snd (Panel.loadConnectionStatus base
                   (World ∅ [] quiet_network [] (Panel.Vars sample_config false VNull))) in
  Panel.connectionStatus (vars w') = VNull
  /\ events w' =
       [Fetch (Request "GET" (ATLASSIAN_BASE_URL base +:+ "/connection/status")
                 "Bearer undefined" None)].
Proof. split; reflexivity. Qed.

(** ** Handling the return from the authorization server *)

Lemma present_Some (s : string) : s <> "" -> present (Some s) = true.
Proof. intros H. cbn. now apply String.eqb_neq in H as ->. Qed.

(** C1, as the code has it: the connection panel, mounted on the
    connections page, sends the code to the backend without looking at the
    stored state.  Returning with [state=S2] while [S] is stored, it posts
    [{code: C, state: S2}], reports success and raises no state error. *)
Theorem panel_callback_skips_state_check :
  let w' := snd (Panel.handleOAuthCallback "/api/v1"
                   (forged_return (Panel.Vars sample_config false VNull))) in
  events w' =
    [ Fetch (Request "POST" "/api/v1/atlassian/connection/callback"
               "Bearer session-token"
               (Some (VObj [("code", VStr "C"); ("state", VStr "S2")])));
      ToastSuccess "Atlassian account connected successfully";
      ReplaceState;
      Fetch (Request "GET" "/api/v1/atlassian/connection/status"
               "Bearer session-token" None) ]
  /\ count_events (is_toast_error "OAuth state verification failed") (events w') = 0
  /\ localStorage w' !! "atlassian_oauth_state" = Some "S".
Proof. cbv zeta. split; [|split]; reflexivity. Qed.

(** Whatever is stored, the panel posts the returned code and state. *)
Lemma panel_callback_exchanges
    (base : string) (w : world Panel.vars) (code state : string) :
  present (first_param "error" (search w)) = false ->
  first_param "code" (search w) = Some code -> code <> "" ->
  first_param "state" (search w) = Some state -> state <> "" ->
  exists rest,
    events (snd (Panel.handleOAuthCallback base w)) =
      events w ++
      Fetch (Request "POST" (ATLASSIAN_BASE_URL base +:+ "/connection/callback")
               (bearer (localStorage w !! "token"))
               (Some (VObj [("code", VStr code); ("state", VStr state)])))
      :: rest.
Proof.
  intros Herr Hcode Hc Hstate Hs.
  unfold Panel.handleOAuthCallback, Panel.loadConnectionStatus,
    handleAtlassianCallback, getAtlassianConnectionStatus, call.
  unfold_js.
  rewrite Hcode, Hstate, Herr, !present_Some by assumption.
  world_simpl.
  match goal with
  | |- context [settle ?r] => destruct (settle r)
  end; world_simpl.
  - cbn [Panel.config Panel.set_loading].
    destruct (truthy (Panel.atlassianEnabled (Panel.config (vars w)))); world_simpl.
    + match goal with
      | |- context [settle ?r] => destruct (settle r)
      end; world_simpl; rewrite <- ?app_assoc; eexists; reflexivity.
    + rewrite <- ?app_assoc. eexists. reflexivity.
  - rewrite <- ?app_assoc. eexists. reflexivity.
Qed.

Section PageProps.
Variable base : string.
Variable w : world ConnectionsPage.vars.
Variables code state : string.
Hypothesis no_error : present (first_param "error" (search w)) = false.
Hypothesis has_code : first_param "code" (search w) = Some code.
Hypothesis code_given : code <> "".
Hypothesis has_state : first_param "state" (search w) = Some state.
Hypothesis state_given : state <> "".

(** The page's own handler does verify: on a mismatch, or with nothing
    stored, it reports the failure, cleans the address and sends nothing. *)
Lemma page_callback_mismatch :
  localStorage w !! "atlassian_oauth_state" <> Some state ->
  ConnectionsPage.handleOAuthCallback base w =
    (Ok tt,
     World (localStorage w) [] (network w)
       (events w ++ [ToastError "OAuth state verification failed" [];
                     Goto "/settings/connections"])
       (vars w)).
Proof.
  intros Hne.
  unfold ConnectionsPage.handleOAuthCallback. unfold_js.
  rewrite has_code, has_state, no_error, !present_Some by assumption.
  world_simpl. rewrite bool_decide_false by congruence.
  world_simpl. now rewrite <- app_assoc.
Qed.

End PageProps.

Lemma get_not_nullish (v : value) (k : string) :
  nullish v = false -> get v k = Ok (get_opt v k).
Proof. now destruct v. Qed.

Section PageMatch.
Variable base : string.
Variable w : world ConnectionsPage.vars.
Variables code state : string.
Hypothesis no_error : present (first_param "error" (search w)) = false.
Hypothesis has_code : first_param "code" (search w) = Some code.
Hypothesis code_given : code <> "".
Hypothesis has_state : first_param "state" (search w) = Some state.
Hypothesis state_given : state <> "".

(** With the stored state equal to the returned one, the slot is removed,
    then the code is posted once; whatever the backend answers, the
    address is cleaned and nothing else is removed from storage. *)
Lemma page_callback_match :
  localStorage w !! "atlassian_oauth_state" = Some state ->
  exists new,
    ConnectionsPage.handleOAuthCallback base w =
      (Ok tt,
       World (delete "atlassian_oauth_state" (localStorage w)) [] (network w)
         (events w ++ RemoveItem "atlassian_oauth_state" :: new)
         (ConnectionsPage.set_loading false (vars w)))
    /\ count_events (is_removeItem "atlassian_oauth_state") new = 0
    /\ count_events is_fetch new = 1
    /\ head new =
         Some (Fetch (Request "POST" (ATLASSIAN_BASE_URL base +:+ "/connection/callback")
                        (bearer (localStorage w !! "token"))
                        (Some (VObj [("code", VStr code); ("state", VStr state)])))).
Proof.
  intros Hst.
  unfold ConnectionsPage.handleOAuthCallback, handleAtlassianCallback, call. unfold_js.
  rewrite has_code, has_state, no_error, !present_Some by assumption.
  world_simpl. rewrite Hst, bool_decide_true by reflexivity.
  world_simpl.
  rewrite lookup_delete_ne by discriminate.
  match goal with
  | |- context [settle ?r] => destruct (settle r) as [res | e] eqn:Hsettle
  end.
  - eexists. split; [| split; [| split]].
    + world_simpl. rewrite <- !app_assoc. cbn [app of_nullable]. reflexivity.
    + reflexivity.
    + reflexivity.
    + reflexivity.
  - apply settle_throw_not_nullish in Hsettle.
    rewrite (get_not_nullish e "message" Hsettle).
    eexists. split; [| split; [| split]].
    + world_simpl. rewrite <- !app_assoc. cbn [app of_nullable]. reflexivity.
    + reflexivity.
    + reflexivity.
    + reflexivity.
Qed.

End PageMatch.

(** C2, as the code has it: when the page handler compares the returned
    state with the stored one, a match removes the slot exactly once and
    does so before the exchange: the removal is the first thing that
    happens, the one exchange request follows it at once, and nothing
    after that removes or sends anything; handling the same return again
    then fails the comparison and sends nothing.  A mismatch leaves
    storage as it was. *)
Theorem stored_state_cleared_when_verified
    (base : string) (w : world ConnectionsPage.vars) (code state : string) :
  present (first_param "error" (search w)) = false ->
  first_param "code" (search w) = Some code -> code <> "" ->
  first_param "state" (search w) = Some state -> state <> "" ->
  let key := "atlassian_oauth_state" in
  let failed := [ToastError "OAuth state verification failed" [];
                 Goto "/settings/connections"] in
  let exchange :=
    Fetch (Request "POST" (ATLASSIAN_BASE_URL base +:+ "/connection/callback")
             (bearer (localStorage w !! "token"))
             (Some (VObj [("code", VStr code); ("state", VStr state)]))) in
  let w' := snd (ConnectionsPage.handleOAuthCallback base w) in
  (localStorage w !! key = Some state ->
     localStorage w' = delete key (localStorage w)
     /\ (exists rest,
           events w' = events w ++ RemoveItem key :: exchange :: rest
           /\ count_events (is_removeItem key) rest = 0
           /\ count_events is_fetch rest = 0)
     /\ ConnectionsPage.handleOAuthCallback base (with_search (search w) w') =
          (Ok tt,
           World (localStorage w') [] (network w') (events w' ++ failed) (vars w')))
  /\ (localStorage w !! key <> Some state ->
        localStorage w' = localStorage w /\ events w' = events w ++ failed).
Proof.
  intros Herr Hcode Hc Hstate Hs key failed exchange w'.
  subst key failed exchange w'. split.
  - intros Hst.
    destruct (page_callback_match base w code state Herr Hcode Hc Hstate Hs Hst)
      as (new & -> & Hrem & Hfetch & Hhead).
    world_simpl. split; [reflexivity |]. split.
    + destruct new as [|first rest]; [discriminate |].
      cbn [head] in Hhead. injection Hhead as ->.
      exists rest. split; [reflexivity |]. split.
      * exact Hrem.
      * cbn [count_events is_fetch] in Hfetch. lia.
    + etransitivity;
        [apply (page_callback_mismatch base _ code state); try assumption | reflexivity].
      cbn [localStorage with_search]. rewrite lookup_delete_eq. discriminate.
  - intros Hne.
    now rewrite (page_callback_mismatch base w code state Herr Hcode Hc Hstate Hs Hne).
Qed.

Lemma stored_state_cleared_when_verified_witness :
  let w := World {["atlassian_oauth_state" := "S"]} [("code", "C"); ("state", "S")]
             accepting_network [] (ConnectionsPage.Vars VNull false) in
  localStorage (snd (ConnectionsPage.handleOAuthCallback "/api/v1" w))
    = delete "atlassian_oauth_state" (localStorage w).
Proof.
  cbv zeta.
  refine (proj1 (proj1 (stored_state_cleared_when_verified "/api/v1"
            (World {["atlassian_oauth_state" := "S"]} [("code", "C"); ("state", "S")]
               accepting_network [] (ConnectionsPage.Vars VNull false))
            "C" "S" eq_refl eq_refl _ eq_refl _) _)).
  - discriminate.
  - discriminate.
  - reflexivity.
Defined.

(** C2 as stated fails: returning with [state=S2] while [S] is stored, the
    handler compares, reports the mismatch and returns early; the slot is
    not removed and still holds [S]. *)
Lemma stored_state_survives_mismatch :
  let w' := snd (ConnectionsPage.handleOAuthCallback "/api/v1"
                   (forged_return (ConnectionsPage.Vars VNull false))) in
  events w' = [ToastError "OAuth state verification failed" [];
               Goto "/settings/connections"]
  /\ count_events (is_removeItem "atlassian_oauth_state") (events w') <> 1
  /\ localStorage w' !! "atlassian_oauth_state" = Some "S".
Proof. cbv zeta. split; [reflexivity | split; [discriminate | reflexivity]]. Qed.

(** ** Searching from the picker *)

Lemma truthy_not_nullish (v : value) : truthy v = true -> nullish v = false.
Proof. now destruct v. Qed.

Section SearchProps.
Variable base : string.
Variable w : world Picker.vars.
Variable result : value.
Hypothesis confluence : Picker.selectedType (vars w) = Picker.Confluence.
Hypothesis site_chosen : truthy (Picker.selectedSite (vars w)) = true.
Hypothesis answered : forall r, network w (events w) r = Response true (Some result).
Hypothesis no_access : get result "error" = Ok (VStr "no_access").

Lemma performSearch_no_access :
  trim (Picker.searchQuery (vars w)) <> "" ->
  Picker.performSearch base w =
    (Ok tt,
     World (localStorage w) (search w) (network w)
       (events w ++
          [Fetch (Request "POST" (ATLASSIAN_BASE_URL base +:+ "/search/confluence")
                    (bearer (localStorage w !! "token"))
                    (Some (stringify
                             [("site_id", get_opt (Picker.selectedSite (vars w)) "id");
                              ("query", VStr (Picker.searchQuery (vars w)));
                              ("space_key", get_opt (Picker.selectedSpace (vars w)) "key");
                              ("max_results", VNum "20")])))])
       (Picker.set_loading false
          (Picker.set_searchResults (VArr [])
             (Picker.set_noConfluenceAccess true
                (Picker.set_searchResults (VArr [])
                   (Picker.set_loading true (vars w))))))).
Proof.
  intros Hq. unfold Picker.performSearch, searchConfluencePages, call. unfold_js.
  cbn [truthy]. apply String.eqb_neq in Hq. rewrite Hq, site_chosen, confluence.
  world_simpl.
  rewrite (get_not_nullish _ "id" (truthy_not_nullish _ site_chosen)).
  rewrite answered. cbn [settle on_fulfilled].
  rewrite no_access. cbn [eq_str String.eqb Ascii.eqb Bool.eqb].
  reflexivity.
Qed.

Lemma loadConfluenceSpaces_no_access :
  Picker.loadConfluenceSpaces base w =
    (Ok tt,
     World (localStorage w) (search w) (network w)
       (events w ++
          match toString (get_opt (Picker.selectedSite (vars w)) "id") with
          | Ok siteId =>
              [Fetch (Request "GET"
                        (ATLASSIAN_BASE_URL base +:+ "/confluence/" +:+ siteId +:+ "/spaces")
                        (bearer (localStorage w !! "token")) None)]
          | Throw _ => []
          end)
       (Picker.set_loadingSpaces false
          (Picker.set_selectedSpace VNull
             (Picker.set_confluenceSpaces (VArr [])
                (Picker.set_selectedSpace VNull
                   (Picker.set_confluenceSpaces (VArr [])
                      (Picker.set_loadingSpaces true (vars w)))))))).
Proof.
  unfold Picker.loadConfluenceSpaces, getConfluenceSpaces, call. unfold_js.
  rewrite site_chosen, confluence. world_simpl.
  rewrite (get_not_nullish _ "id" (truthy_not_nullish _ site_chosen)).
  destruct (toString (get_opt (Picker.selectedSite (vars w)) "id")); world_simpl.
  - rewrite answered. cbn [settle on_fulfilled].
    rewrite no_access. cbn [eq_str String.eqb Ascii.eqb Bool.eqb].
    reflexivity.
  - now rewrite app_nil_r.
Qed.

End SearchProps.

(** A hard failure takes the other path: when the wrapper throws, or
    hands back the [null] of an unreachable server, the failure is caught,
    the user is told that the search failed and the flag is left alone. *)
Lemma performSearch_hard_failure
    (base : string) (w : world Picker.vars) (answer : response) :
  truthy (Picker.selectedSite (vars w)) = true ->
  trim (Picker.searchQuery (vars w)) <> "" ->
  (forall r, network w (events w) r = answer) ->
  match settle answer with
  | Ok result => nullish result = true
  | Throw _ => True
  end ->
  exists r,
    Picker.performSearch base w =
      (Ok tt,
       World (localStorage w) (search w) (network w)
         (events w ++ [Fetch r; ToastError "Search failed" []])
         (Picker.set_loading false
            (Picker.set_searchResults (VArr []) (Picker.set_loading true (vars w))))).
Proof.
  intros Hsite Hq Hnet Hhard.
  unfold Picker.performSearch, searchConfluencePages, searchJiraIssues, call. unfold_js.
  cbn [truthy]. apply String.eqb_neq in Hq. rewrite Hq, Hsite. world_simpl.
  rewrite (get_not_nullish _ "id" (truthy_not_nullish _ Hsite)).
  destruct (Picker.selectedType (vars w)); world_simpl; rewrite Hnet;
    destruct (settle answer) as [result | e]; world_simpl;
    try (destruct result; try discriminate Hhard; cbn [get]; world_simpl);
    rewrite <- ?app_assoc; eexists; reflexivity.
Qed.

(** C7, as the code has it: a Confluence search answered on a 2xx status
    with [{error: "no_access"}] completes without throwing and without an
    error toast, leaves the results empty and raises the no-access flag;
    listing the spaces on such an answer ends silently with an empty list
    and no space selected.  A hard failure of the search, where the
    wrapper throws or hands back [null], is told apart: it shows the
    "Search failed" toast and leaves the flag as it was. *)
Theorem confluence_no_access_is_soft (base : string) (w : world Picker.vars) :
  Picker.selectedType (vars w) = Picker.Confluence ->
  truthy (Picker.selectedSite (vars w)) = true ->
  trim (Picker.searchQuery (vars w)) <> "" ->
  let v := vars w in
  let searched := Picker.performSearch base w in
  let listed := Picker.loadConfluenceSpaces base w in
  (forall result,
     (forall r, network w (events w) r = Response true (Some result)) ->
     get result "error" = Ok (VStr "no_access") ->
     (fst searched = Ok tt
      /\ Picker.searchResults (vars (snd searched)) = VArr []
      /\ Picker.noConfluenceAccess (vars (snd searched)) = true
      /\ Picker.loading (vars (snd searched)) = false
      /\ events (snd searched) =
           events w ++
           [Fetch (Request "POST" (ATLASSIAN_BASE_URL base +:+ "/search/confluence")
                     (bearer (localStorage w !! "token"))
                     (Some (stringify
                              [("site_id", get_opt (Picker.selectedSite v) "id");
                               ("query", VStr (Picker.searchQuery v));
                               ("space_key", get_opt (Picker.selectedSpace v) "key");
                               ("max_results", VNum "20")])))])
     /\ (fst listed = Ok tt
         /\ Picker.confluenceSpaces (vars (snd listed)) = VArr []
         /\ Picker.selectedSpace (vars (snd listed)) = VNull
         /\ Picker.loadingSpaces (vars (snd listed)) = false
         /\ events (snd listed) =
              events w ++
              match toString (get_opt (Picker.selectedSite v) "id") with
              | Ok siteId =>
                  [Fetch (Request "GET"
                            (ATLASSIAN_BASE_URL base +:+ "/confluence/" +:+ siteId
                               +:+ "/spaces")
                            (bearer (localStorage w !! "token")) None)]
              | Throw _ => []
              end))
  /\ (forall answer,
        (forall r, network w (events w) r = answer) ->
        match settle answer with
        | Ok result => nullish result = true
        | Throw _ => True
        end ->
        fst searched = Ok tt
        /\ Picker.searchResults (vars (snd searched)) = VArr []
        /\ Picker.noConfluenceAccess (vars (snd searched)) = Picker.noConfluenceAccess v
        /\ Picker.loading (vars (snd searched)) = false
        /\ exists r,
             events (snd searched) = events w ++ [Fetch r; ToastError "Search failed" []]).
Proof.
  intros Htype Hsite Hq v searched listed. subst v searched listed. split.
  - intros result Hnet Herr.
    rewrite (performSearch_no_access base w result Htype Hsite Hnet Herr Hq).
    rewrite (loadConfluenceSpaces_no_access base w result Htype Hsite Hnet Herr).
    cbn. repeat split; reflexivity.
  - intros answer Hnet Hhard.
    destruct (performSearch_hard_failure base w answer Hsite Hq Hnet Hhard) as [r ->].
    cbn. repeat split; eauto.
Qed.

Lemma confluence_no_access_is_soft_witness :
  let w := World ∅ [] no_access_network [] (picker_vars Picker.Confluence "roadmap") in
  Picker.noConfluenceAccess (vars (snd (Picker.performSearch "/api/v1" w))) = true
  /\ Picker.confluenceSpaces (vars (snd (Picker.loadConfluenceSpaces "/api/v1" w))) = VArr [].
Proof.
  cbv zeta.
  destruct (confluence_no_access_is_soft "/api/v1"
              (World ∅ [] no_access_network [] (picker_vars Picker.Confluence "roadmap"))
              eq_refl eq_refl)
    as [Hsoft _].
  - vm_compute. discriminate.
  - destruct (Hsoft (VObj [("error", VStr "no_access")])) as [(_ & _ & Hflag & _) (_ & Hspaces & _)].
    + reflexivity.
    + reflexivity.
    + split; [exact Hflag | exact Hspaces].
Defined.

(** C7 as stated fails for Jira: the same soft payload in answer to a Jira
    search is read for its [issues] only; the search completes, but the
    no-access flag stays down. *)
Lemma jira_no_access_raises_no_flag :
  let done := Picker.performSearch "/api/v1"
                (World ∅ [] no_access_network [] (picker_vars Picker.Jira "login bug")) in
  fst done = Ok tt
  /\ Picker.searchResults (vars (snd done)) = VArr []
  /\ Picker.noConfluenceAccess (vars (snd done)) = false.
Proof. cbv zeta. repeat split; reflexivity. Qed.
(** ** Descriptions without content *)

Lemma extractTextFromADF_no_content (adf : value) :
  truthy (get_opt adf "content") = false -> Picker.extractTextFromADF adf = Ok "".
Proof.
  intros Hc. unfold Picker.extractTextFromADF.
  destruct (truthy adf) eqn:Ht; [| reflexivity].
  cbn [negb]. rewrite (get_not_nullish adf) by now apply truthy_not_nullish.
  now rewrite Hc.
Qed.

(** The guard looks at the document only: a [null] among the children of
    a document that has content still makes [processNode] throw. *)
Lemma extractTextFromADF_null_child :
  Picker.extractTextFromADF (VObj [("type", VStr "doc"); ("content", VArr [VNull])])
    = Throw (TypeError "Cannot read properties of null").
Proof. reflexivity. Qed.

(** C10. Given [null], [undefined] or a value without a [content]
    property, [extractTextFromADF] returns the empty string and does not
    throw; and a Jira issue whose description is such a value gets its
    description text without a failure: the string itself if it is one,
    the no-description notice otherwise. *)
Theorem extractTextFromADF_without_content (adf : value) :
  adf = VUndefined \/ adf = VNull \/ get_opt adf "content" = VUndefined ->
  Picker.extractTextFromADF adf = Ok ""
  /\ forall fields,
       nullish fields = false ->
       get_opt fields "description" = adf ->
       Picker.jiraDescription fields =
         Ok (match adf with
             | VStr s => if truthy adf then s else "No description"
             | _ => "No description"
             end).
Proof.
  intros Hadf.
  assert (Hc : truthy (get_opt adf "content") = false).
  { destruct Hadf as [-> | [-> | ->]]; reflexivity. }
  split; [now apply extractTextFromADF_no_content |].
  intros fields Hfields Hd. unfold Picker.jiraDescription.
  rewrite (get_not_nullish fields) by assumption. rewrite Hd.
  destruct (truthy adf) eqn:Ht; [| now destruct adf].
  rewrite (get_not_nullish adf) by now apply truthy_not_nullish.
  rewrite Hc. now destruct adf.
Qed.

Lemma extractTextFromADF_without_content_witness :
  Picker.extractTextFromADF (VObj [("type", VStr "doc"); ("version", VNum "1")]) = Ok "".
Proof.
  exact (proj1 (extractTextFromADF_without_content
                  (VObj [("type", VStr "doc"); ("version", VNum "1")])
                  (or_intror (or_intror eq_refl)))).
Defined.

(** ** Text of a rich document *)

Lemma array_prop_lookup {A} (on_array : list value -> A) (otherwise : A)
    (k : string) (props : list (string * value)) :
  array_prop on_array otherwise k props =
    match lookup_prop k props with
    | VArr items => on_array items
    | _ => otherwise
    end.
Proof.
  induction props as [|[k' v] props IH]; [reflexivity |].
  cbn [array_prop lookup_prop].
  destruct (String.eqb k' k); [now destruct v | exact IH].
Qed.

(** The body of [processNode] on an object, read through its properties. *)
Lemma processNode_unfold (props : list (string * value)) (text : string) :
  Picker.processNode (VObj props) text =
    let? text1 :=
      (if truthy (lookup_prop "text" props)
       then let? s := toString (lookup_prop "text" props) in Ok (text +:+ s)
       else Ok text) in
    match lookup_prop "content" props with
    | VArr children =>
        forEach
          (fun child t =>
             match Picker.processNode child t with
             | Ok t' =>
                 Ok (if Picker.is_block (lookup_prop "type" props)
                     then t' +:+ newline else t')
             | Throw e => Throw e
             end)
          children text1
    | _ => Ok text1
    end.
Proof.
  cbn [Picker.processNode].
  destruct (if truthy (lookup_prop "text" props)
            then let? s := toString (lookup_prop "text" props) in Ok (text +:+ s)
            else Ok text); [| reflexivity].
  now rewrite array_prop_lookup.
Qed.

Lemma is_block_type (type : string) : Picker.is_block (VStr type) = block_type type.
Proof. reflexivity. Qed.

(** On the JSON of a document [processNode] never throws, and appends the
    text with a newline after every child of a paragraph or heading. *)
Lemma processNode_gathers (d : adf) (text : string) :
  Picker.processNode (to_value d) text = Ok (text +:+ gathered_text d).
Proof.
  revert text. induction d as [s | type children IH] using adf_children_ind; intros text.
  - cbn [to_value]. rewrite processNode_unfold.
    cbn [lookup_prop String.eqb Ascii.eqb Bool.eqb truthy toString gathered_text].
    destruct (String.eqb s "") eqn:Hs; cbn [negb].
    + apply String.eqb_eq in Hs as ->. now rewrite append_empty_r.
    + reflexivity.
  - cbn [to_value]. rewrite processNode_unfold.
    cbn [lookup_prop String.eqb Ascii.eqb Bool.eqb truthy gathered_text].
    rewrite is_block_type.
    induction children as [|c children IHc] in IH, text |- *.
    + cbn. now rewrite append_empty_r.
    + apply Forall_cons_1 in IH as [Hc Hrest].
      cbn [map forEach concat_strings]. rewrite Hc.
      destruct (block_type type).
      * rewrite IHc by assumption. now rewrite !append_assoc.
      * rewrite IHc by assumption. now rewrite !append_assoc.
Qed.

Lemma extractTextFromADF_gathers (type : string) (children : list adf) :
  Picker.extractTextFromADF (to_value (Node type children))
    = Ok (trim (gathered_text (Node type children))).
Proof.
  unfold Picker.extractTextFromADF.
  rewrite processNode_gathers. reflexivity.
Qed.

(** Where every paragraph and heading has one child, the newline after
    each child is the newline after the children. *)
Lemma gathered_text_single_child (d : adf) :
  single_child_blocks d = true -> gathered_text d = spec_text d.
Proof.
  induction d as [s | type children IH] using adf_children_ind; [reflexivity |].
  cbn [single_child_blocks gathered_text spec_text]. intros [Hone Hall]%andb_prop.
  assert (Hkids : map gathered_text children = map spec_text children).
  { clear Hone. induction children as [|c children IHc]; [reflexivity |].
    apply Forall_cons_1 in IH as [Hc Hrest].
    cbn [forallb] in Hall. apply andb_prop in Hall as [H1 H2].
    cbn [map]. now rewrite Hc, IHc by assumption. }
  destruct (block_type type).
  - destruct children as [|c [|c' rest]]; try discriminate.
    cbn [map concat_strings] in *. injection Hkids as ->.
    now rewrite !append_empty_r.
  - rewrite <- Hkids. clear.
    induction children as [|c children IHc]; [reflexivity |].
    cbn [map concat_strings]. rewrite !append_empty_r in *. now rewrite IHc.
Qed.

Lemma extractTextFromADF_single_child (type : string) (children : list adf) :
  single_child_blocks (Node type children) = true ->
  Picker.extractTextFromADF (to_value (Node type children))
    = Ok (adf_text_spec (Node type children)).
Proof.
  intros Hone. rewrite extractTextFromADF_gathers. unfold adf_text_spec.
  now rewrite gathered_text_single_child.
Qed.

(** C4, as the code has it: the newline is added inside the loop over the
    children, once after every child of a paragraph or heading.  A
    paragraph of the runs "Hello " and "world" comes out on two lines,
    where one newline after the children gives "Hello world". *)
Theorem paragraph_runs_are_split :
  Picker.extractTextFromADF (to_value two_run_paragraph)
    = Ok ("Hello " +:+ newline +:+ "world")
  /\ adf_text_spec two_run_paragraph = "Hello world".
Proof. split; reflexivity. Qed.

(** ** Rendering a Jira issue *)





(** ** Text of a Confluence page *)

Lemma strip_from_keeps (x : ascii) (inTag : bool) (s : string) :
  contains_char x s = false -> contains_char x (strip_from inTag s) = false.
Proof.
  revert inTag. induction s as [|c s IH]; intros inTag H; [reflexivity |].
  cbn [contains_char] in H. apply orb_false_elim in H as [Hc Hs].
  cbn [strip_from].
  destruct inTag.
  - destruct (Ascii.eqb c ">"); now apply IH.
  - destruct (Ascii.eqb c "<" && contains_char ">" s); [now apply IH |].
    cbn [contains_char]. now rewrite Hc, IH.
Qed.

(** After the first replacement no tag is left in the text. *)
Lemma stripTags_no_tag (s : string) : has_tag (stripTags s) = false.
Proof.
  unfold stripTags.
  enough (H : forall inTag, has_tag (strip_from inTag s) = false) by apply H.
  induction s as [|c s IH]; intros inTag; [reflexivity |].
  cbn [strip_from]. destruct inTag.
  - destruct (Ascii.eqb c ">"); apply IH.
  - destruct (Ascii.eqb c "<") eqn:Hlt; cbn [andb].
    + destruct (contains_char ">" s) eqn:Hgt; [apply IH |].
      cbn [has_tag]. rewrite Hlt, IH, strip_from_keeps by assumption. reflexivity.
    + cbn [has_tag]. now rewrite Hlt, IH.
Qed.

Lemma strip_from_plain (s : string) :
  contains_char "<" s = false -> strip_from false s = s.
Proof.
  induction s as [|c s IH]; [reflexivity |].
  cbn [contains_char strip_from]. intros [Hc Hs]%orb_false_elim.
  rewrite Hc. cbn [andb]. now rewrite IH.
Qed.

Lemma replaceAll_plain (c : ascii) (pat rep s : string) :
  contains_char c s = false -> replaceAll (String c pat) rep s = s.
Proof.
  unfold replaceAll. induction s as [|d s IH]; [reflexivity |].
  cbn [contains_char replace_from String.prefix]. intros [Hd Hs]%orb_false_elim.
  destruct (ascii_dec c d) as [<- | Hne].
  - now rewrite Ascii.eqb_refl in Hd.
  - now rewrite IH.
Qed.

(** Text with neither ["<"] nor ["&"] in it is rendered unchanged. *)
Lemma plainText_plain (s : string) :
  contains_char "<" s = false -> contains_char "&" s = false ->
  Picker.plainText s = s.
Proof.
  intros Hlt Hamp. unfold Picker.plainText, stripTags.
  rewrite strip_from_plain by assumption.
  rewrite (replaceAll_plain "&" "nbsp;" " " s) by assumption.
  rewrite (replaceAll_plain "&" "amp;" "&" s) by assumption.
  rewrite (replaceAll_plain "&" "lt;" "<" s) by assumption.
  now rewrite (replaceAll_plain "&" "gt;" ">" s) by assumption.
Qed.

(** The example of the specification, and each entity on its own. *)
Lemma plainText_example : Picker.plainText "<p>A &amp; B</p>" = "A & B".
Proof. reflexivity. Qed.

Lemma plainText_entities :
  Picker.plainText "a&nbsp;b" = "a b" /\ Picker.plainText "a&amp;b" = "a&b"
  /\ Picker.plainText "a&lt;b" = "a<b" /\ Picker.plainText "a&gt;b" = "a>b"
  /\ Picker.plainText "a&quot;b" = "a&quot;b".
Proof. repeat split; reflexivity. Qed.

Lemma get_opt_truthy (v : value) (k : string) :
  truthy v = true -> get v k = Ok (get_opt v k).
Proof. intros H. apply get_not_nullish. now apply truthy_not_nullish. Qed.

(** The body that is rendered, read through the properties of the page. *)
Lemma confluenceBody_chosen (fullPage : value) :
  nullish fullPage = false ->
  Picker.confluenceBody fullPage = Ok (Selection.chosen_body fullPage).
Proof.
  intros Hpage. unfold Picker.confluenceBody, Selection.chosen_body.
  rewrite (get_not_nullish fullPage) by assumption.
  destruct (truthy (get_opt fullPage "body")) eqn:Hbody; [| reflexivity].
  rewrite !(get_opt_truthy (get_opt fullPage "body")) by assumption.
  destruct (truthy (get_opt (get_opt fullPage "body") "storage")) eqn:Hst.
  - rewrite (get_opt_truthy _ "value" Hst). cbn [andb].
    destruct (truthy (get_opt (get_opt (get_opt fullPage "body") "storage") "value"));
      [reflexivity |].
    now destruct (truthy (get_opt (get_opt fullPage "body") "value")).
  - cbn [andb].
    now destruct (truthy (get_opt (get_opt fullPage "body") "value")).
Qed.

(** The content of a page that is an object, line by line: no property
    read throws, and a conversion that throws ends the rendering. *)
Lemma confluenceContent_lines (toLocaleDateString : value -> string) (fullPage : value) :
  nullish fullPage = false ->
  let space := get_opt fullPage "space" in
  let version := get_opt fullPage "version" in
  let updateDate := or_else (get_opt version "when") (get_opt version "createdAt") in
  Picker.confluenceContent toLocaleDateString fullPage =
    let? title := toString (get_opt fullPage "title") in
    let? spaceLine :=
      (if truthy space
       then
         let? shown := toString (or_else (get_opt space "name") (get_opt space "key")) in
         Ok ("**Space:** " +:+ shown +:+ newline)
       else Ok "") in
    let? dateLine :=
      (if truthy version && truthy updateDate
       then
         let? date := toPrimitive updateDate in
         Ok ("**Last Updated:** " +:+ toLocaleDateString date +:+ newline +:+ newline)
       else Ok "") in
    let? rendered := Picker.renderBody (Selection.chosen_body fullPage) in
    Ok ("## " +:+ title +:+ newline +:+ newline +:+ spaceLine +:+ dateLine +:+ rendered).
Proof.
  intros Hpage space version updateDate. subst space version updateDate.
  unfold Picker.confluenceContent.
  rewrite !(get_not_nullish fullPage) by assumption.
  rewrite (confluenceBody_chosen fullPage Hpage).
  destruct (toString (get_opt fullPage "title")) as [title |]; [| reflexivity].
  unfold or_else.
  destruct (truthy (get_opt fullPage "space")) eqn:Hspace.
  - rewrite !(get_opt_truthy (get_opt fullPage "space")) by assumption.
    destruct (truthy (get_opt (get_opt fullPage "space") "name")) eqn:Hname.
    + destruct (toString (get_opt (get_opt fullPage "space") "name")); [| reflexivity].
      destruct (truthy (get_opt fullPage "version")) eqn:Hversion; cbn [andb].
      * rewrite !(get_opt_truthy (get_opt fullPage "version")) by assumption.
        destruct (truthy (get_opt (get_opt fullPage "version") "when")) eqn:Hwhen.
        -- rewrite Hwhen.
           destruct (toPrimitive (get_opt (get_opt fullPage "version") "when"));
             [| reflexivity].
           destruct (Picker.renderBody (Selection.chosen_body fullPage)); [| reflexivity].
           f_equal. now rewrite !append_assoc.
        -- destruct (truthy (get_opt (get_opt fullPage "version") "createdAt")).
           ++ destruct (toPrimitive (get_opt (get_opt fullPage "version") "createdAt"));
                [| reflexivity].
              destruct (Picker.renderBody (Selection.chosen_body fullPage)); [| reflexivity].
              f_equal. now rewrite !append_assoc.
           ++ destruct (Picker.renderBody (Selection.chosen_body fullPage)); [| reflexivity].
              f_equal. now rewrite !append_assoc.
      * destruct (Picker.renderBody (Selection.chosen_body fullPage)); [| reflexivity].
        f_equal. now rewrite !append_assoc.
    + destruct (toString (get_opt (get_opt fullPage "space") "key")); [| reflexivity].
      destruct (truthy (get_opt fullPage "version")) eqn:Hversion; cbn [andb].
      * rewrite !(get_opt_truthy (get_opt fullPage "version")) by assumption.
        destruct (truthy (get_opt (get_opt fullPage "version") "when")) eqn:Hwhen.
        -- rewrite Hwhen.
           destruct (toPrimitive (get_opt (get_opt fullPage "version") "when"));
             [| reflexivity].
           destruct (Picker.renderBody (Selection.chosen_body fullPage)); [| reflexivity].
           f_equal. now rewrite !append_assoc.
        -- destruct (truthy (get_opt (get_opt fullPage "version") "createdAt")).
           ++ destruct (toPrimitive (get_opt (get_opt fullPage "version") "createdAt"));
                [| reflexivity].
              destruct (Picker.renderBody (Selection.chosen_body fullPage)); [| reflexivity].
              f_equal. now rewrite !append_assoc.
           ++ destruct (Picker.renderBody (Selection.chosen_body fullPage)); [| reflexivity].
              f_equal. now rewrite !append_assoc.
      * destruct (Picker.renderBody (Selection.chosen_body fullPage)); [| reflexivity].
        f_equal. now rewrite !append_assoc.
  - destruct (truthy (get_opt fullPage "version")) eqn:Hversion; cbn [andb].
    + rewrite !(get_opt_truthy (get_opt fullPage "version")) by assumption.
      destruct (truthy (get_opt (get_opt fullPage "version") "when")) eqn:Hwhen.
      * rewrite Hwhen.
        destruct (toPrimitive (get_opt (get_opt fullPage "version") "when"));
          [| reflexivity].
        destruct (Picker.renderBody (Selection.chosen_body fullPage)); [| reflexivity].
        f_equal. now rewrite !append_assoc.
      * destruct (truthy (get_opt (get_opt fullPage "version") "createdAt")).
        -- destruct (toPrimitive (get_opt (get_opt fullPage "version") "createdAt"));
             [| reflexivity].
           destruct (Picker.renderBody (Selection.chosen_body fullPage)); [| reflexivity].
           f_equal. now rewrite !append_assoc.
        -- destruct (Picker.renderBody (Selection.chosen_body fullPage)); [| reflexivity].
           f_equal. now rewrite !append_assoc.
    + destruct (Picker.renderBody (Selection.chosen_body fullPage)); [| reflexivity].
      f_equal. now rewrite !append_assoc.
Qed.

(** Without a body the content ends in the fallback notice, whatever
    else the page has, as long as its heading lines can be written. *)
Lemma confluenceContent_without_body (toLocaleDateString : value -> string)
    (fullPage : value) :
  nullish fullPage = false ->
  truthy (get_opt fullPage "body") = false ->
  let space := get_opt fullPage "space" in
  let version := get_opt fullPage "version" in
  (exists title, toString (get_opt fullPage "title") = Ok title) ->
  (exists shown,
     toString (or_else (get_opt space "name") (get_opt space "key")) = Ok shown) ->
  (exists date,
     toPrimitive (or_else (get_opt version "when") (get_opt version "createdAt"))
       = Ok date) ->
  exists head,
    Picker.confluenceContent toLocaleDateString fullPage =
      Ok (head +:+ "No content available").
Proof.
  intros Hpage Hbody space version [title Htitle] [shown Hshown] [date Hdate].
  rewrite (confluenceContent_lines toLocaleDateString fullPage Hpage).
  cbv zeta. fold space version. rewrite Htitle, Hshown, Hdate.
  unfold Selection.chosen_body. rewrite Hbody.
  cbn [Picker.renderBody truthy String.eqb negb].
  destruct (truthy space);
    destruct (truthy version
              && truthy (or_else (get_opt version "when") (get_opt version "createdAt")));
    eexists; rewrite <- ?append_assoc; reflexivity.
Qed.

Lemma confluenceContent_without_body_example :
  Picker.confluenceContent (fun _ => "1/1/2025") page_without_body =
    Ok ("## Runbook" +:+ newline +:+ newline +:+ "No content available").
Proof. reflexivity. Qed.

(** C9, as the code has it: the four replacements run one after the
    other, [&amp;] before [&lt;] and [&gt;], so the text that decoding
    [&amp;] produces is decoded again.  A page that spells the entity
    [&lt;] literally, stored as [&amp;lt;], is rendered as [<]. *)
Theorem escaped_entity_is_decoded_twice :
  Picker.plainText "<p>Write &amp;lt; for a less-than sign</p>"
    = "Write < for a less-than sign"
  /\ plainText_spec "<p>Write &amp;lt; for a less-than sign</p>"
    = "Write &lt; for a less-than sign"
  /\ Picker.renderBody (VStr "&amp;lt;") = Ok "<".
Proof. repeat split; reflexivity. Qed.

(** ** Where the replacements agree with one-pass decoding *)

Lemma prefix_cons_inv (a : ascii) (p s : string) :
  String.prefix (String a p) s = true ->
  exists s', s = String a s' /\ String.prefix p s' = true.
Proof.
  destruct s as [|c s]; cbn [String.prefix]; [discriminate |].
  destruct (ascii_dec a c) as [<- | _]; [eauto | discriminate].
Qed.

Lemma prefix_nil (s : string) : String.prefix "" s = true.
Proof. now destruct s. Qed.

(** A replacement whose pattern starts with ["&"] passes over any other
    character. *)
Lemma replace_other (p r : string) (c : ascii) (s : string) :
  c <> "&"%char ->
  replaceAll (String "&" p) r (String c s) = String c (replaceAll (String "&" p) r s).
Proof.
  intros Hc. unfold replaceAll. cbn [replace_from String.prefix].
  destruct (ascii_dec "&" c) as [<- | _]; [contradiction | reflexivity].
Qed.

Lemma replace_miss (p r s : string) :
  String.prefix p s = false ->
  replaceAll (String "&" p) r (String "&" s) = String "&" (replaceAll (String "&" p) r s).
Proof.
  intros Hp. unfold replaceAll. cbn [replace_from String.prefix].
  destruct (ascii_dec "&" "&") as [_ | Hne]; [| contradiction].
  now rewrite Hp.
Qed.

Lemma decode_other (c : ascii) (s : string) :
  c <> "&"%char -> decode_entities (String c s) = String c (decode_entities s).
Proof.
  intros Hc. unfold decode_entities. cbn [decode_from String.prefix].
  destruct (ascii_dec "&" c) as [<- | _]; [contradiction | reflexivity].
Qed.

(** A replacement does not change whether the text starts with [q], when
    [q] has neither ["&"] nor the replacement character in it. *)
Lemma prefix_replace (q p : string) (r0 : ascii) (s : string) :
  contains_char "&" q = false -> contains_char r0 q = false ->
  String.prefix q (replaceAll (String "&" p) (String r0 "") s) = String.prefix q s.
Proof.
  revert s. induction q as [|a q IH]; intros s Hamp Hr.
  - now rewrite !prefix_nil.
  - cbn [contains_char] in Hamp, Hr.
    apply orb_false_elim in Hamp as [Ha Hamp]. apply orb_false_elim in Hr as [Har Hr].
    destruct s as [|c s]; [reflexivity |].
    destruct (ascii_dec c "&") as [-> | Hc].
    + assert (Hne : a <> "&"%char) by (intros ->; discriminate).
      assert (Hne' : a <> r0) by (intros ->; now rewrite Ascii.eqb_refl in Har).
      unfold replaceAll. cbn [replace_from].
      destruct (String.prefix (String "&" p) (String "&" s));
        rewrite ?append_cons, ?append_nil_l; cbn [String.prefix];
        destruct (ascii_dec a r0); destruct (ascii_dec a "&"); congruence.
    + rewrite replace_other by assumption. cbn [String.prefix].
      destruct (ascii_dec a c); [now apply IH | reflexivity].
Qed.

Lemma occurs_cons (pat : string) (c : ascii) (s : string) :
  occurs pat (String c s) = false -> occurs pat s = false.
Proof. cbn [occurs]. now intros [_ H]%orb_false_elim. Qed.

Lemma no_escaped_angle_cons (c : ascii) (s : string) :
  no_escaped_angle (String c s) = true -> no_escaped_angle s = true.
Proof.
  unfold no_escaped_angle.
  intros [H1%negb_true_iff H2%negb_true_iff]%andb_prop.
  now rewrite (occurs_cons _ _ _ H1), (occurs_cons _ _ _ H2).
Qed.

Lemma prefix_split (p s : string) :
  String.prefix p s = true -> exists v, s = p +:+ v.
Proof.
  revert s. induction p as [|a p IH]; intros s H.
  - now exists s.
  - apply prefix_cons_inv in H as (s' & -> & H).
    destruct (IH s' H) as [v ->]. now exists v.
Qed.

Lemma prefix_append (p v : string) : String.prefix p (p +:+ v) = true.
Proof.
  induction p as [|a p IH]; [apply prefix_nil |].
  rewrite append_cons. cbn [String.prefix].
  destruct (ascii_dec a a); [exact IH | contradiction].
Qed.

Lemma replace_from_skip (pat r p v : string) :
  replace_from pat r (String.length p) (p +:+ v) = replace_from pat r 0 v.
Proof.
  induction p as [|a p IH]; [reflexivity |].
  rewrite append_cons. exact IH.
Qed.

(** At a match the replacement is written and the scan goes on behind it. *)
Lemma replace_hit (p r v : string) :
  replaceAll (String "&" p) r (String "&" (p +:+ v))
    = r +:+ replaceAll (String "&" p) r v.
Proof.
  unfold replaceAll. cbn [replace_from String.prefix].
  destruct (ascii_dec "&" "&") as [_ | Hne]; [| contradiction].
  rewrite prefix_append. cbn [String.length Nat.sub].
  now rewrite Nat.sub_0_r, replace_from_skip.
Qed.

Lemma replace_plain_prefix (p r q s : string) :
  contains_char "&" q = false ->
  replaceAll (String "&" p) r (q +:+ s) = q +:+ replaceAll (String "&" p) r s.
Proof.
  induction q as [|a q IH]; intros Hq; [reflexivity |].
  cbn [contains_char] in Hq. apply orb_false_elim in Hq as [Ha Hq].
  rewrite !append_cons, replace_other, IH; [reflexivity | assumption |].
  intros ->. discriminate.
Qed.

Lemma no_escaped_angle_append (p v : string) :
  no_escaped_angle (p +:+ v) = true -> no_escaped_angle v = true.
Proof.
  induction p as [|a p IH]; [trivial |].
  rewrite append_cons. intros H. apply no_escaped_angle_cons in H. now apply IH.
Qed.

Lemma decode_miss (u : string) :
  String.prefix "nbsp;" u = false -> String.prefix "amp;" u = false ->
  String.prefix "lt;" u = false -> String.prefix "gt;" u = false ->
  decode_entities (String "&" u) = String "&" (decode_entities u).
Proof.
  intros H1 H2 H3 H4. unfold decode_entities. cbn [decode_from String.prefix].
  destruct (ascii_dec "&" "&") as [_ | Hne]; [| contradiction].
  now rewrite H1, H2, H3, H4.
Qed.

Lemma prefix_hit (a : ascii) (p v : string) :
  String.prefix (String a p) (String a (p +:+ v)) = true.
Proof. exact (prefix_append (String a p) v). Qed.

Ltac prefix_miss :=
  match goal with
  | |- context [String.prefix ?p ?s] =>
      replace (String.prefix p s) with false by reflexivity
  end.

Lemma decode_hit_nbsp (v : string) :
  decode_entities (String "&" ("nbsp;" +:+ v)) = String " " (decode_entities v).
Proof.
  unfold decode_entities. cbn [decode_from].
  rewrite prefix_hit. reflexivity.
Qed.

Lemma decode_hit_amp (v : string) :
  decode_entities (String "&" ("amp;" +:+ v)) = String "&" (decode_entities v).
Proof.
  unfold decode_entities. cbn [decode_from].
  prefix_miss. rewrite prefix_hit. reflexivity.
Qed.

Lemma decode_hit_lt (v : string) :
  decode_entities (String "&" ("lt;" +:+ v)) = String "<" (decode_entities v).
Proof.
  unfold decode_entities. cbn [decode_from].
  do 2 prefix_miss. rewrite prefix_hit. reflexivity.
Qed.

Lemma decode_hit_gt (v : string) :
  decode_entities (String "&" ("gt;" +:+ v)) = String ">" (decode_entities v).
Proof.
  unfold decode_entities. cbn [decode_from].
  do 3 prefix_miss. rewrite prefix_hit. reflexivity.
Qed.

Lemma plainText_replaced (s : string) : Picker.plainText s = replaced (stripTags s).
Proof. reflexivity. Qed.

(** On text in which no [&amp;] is followed by [lt;] or [gt;], the four
    replacements in sequence decode the entities as one pass does. *)
Lemma replaced_decodes (n : nat) (t : string) :
  String.length t <= n -> no_escaped_angle t = true ->
  replaced t = decode_entities t.
Proof.
  revert t. induction n as [|n IH]; intros t Hlen Hok.
  { destruct t; [reflexivity | cbn in Hlen; lia]. }
  destruct t as [|c u]; [reflexivity |].
  cbn [String.length] in Hlen.
  destruct (ascii_dec c "&") as [-> | Hc].
  2: { unfold replaced.
       rewrite (replace_other "nbsp;" " " c u Hc), (replace_other "amp;" "&" c _ Hc),
         (replace_other "lt;" "<" c _ Hc), (replace_other "gt;" ">" c _ Hc),
         (decode_other c u Hc).
       f_equal. apply IH; [lia | now apply no_escaped_angle_cons in Hok]. }
  assert (Htail : forall p v, u = p +:+ v ->
            replaced v = decode_entities v).
  { intros p v ->. apply IH.
    - rewrite length_append in Hlen. lia.
    - apply no_escaped_angle_cons in Hok. now apply no_escaped_angle_append in Hok. }
  destruct (String.prefix "nbsp;" u) eqn:H1.
  { destruct (prefix_split _ _ H1) as [v ->]. unfold replaced.
    rewrite (replace_hit "nbsp;" " " v).
    change (" " +:+ ?x) with (String " " x).
    rewrite (replace_other "amp;" "&" " "), (replace_other "lt;" "<" " "),
      (replace_other "gt;" ">" " ") by discriminate.
    rewrite decode_hit_nbsp. f_equal. exact (Htail "nbsp;" v eq_refl). }
  destruct (String.prefix "amp;" u) eqn:H2.
  { destruct (prefix_split _ _ H2) as [v ->]. unfold replaced.
    assert (Hlt : String.prefix "lt;" v = false).
    { unfold no_escaped_angle in Hok. apply andb_prop in Hok as [Hok _].
      apply negb_true_iff in Hok. cbn [occurs] in Hok.
      apply orb_false_elim in Hok as [Hok _]. exact Hok. }
    assert (Hgt : String.prefix "gt;" v = false).
    { unfold no_escaped_angle in Hok. apply andb_prop in Hok as [_ Hok].
      apply negb_true_iff in Hok. cbn [occurs] in Hok.
      apply orb_false_elim in Hok as [Hok _]. exact Hok. }
    rewrite (replace_miss "nbsp;" " " _ H1).
    rewrite (replace_plain_prefix "nbsp;" " " "amp;" v eq_refl).
    rewrite (replace_hit "amp;" "&" _).
    change ("&" +:+ ?x) with (String "&" x).
    rewrite (replace_miss "lt;" "<").
    2: { now rewrite !prefix_replace by reflexivity. }
    rewrite (replace_miss "gt;" ">").
    2: { now rewrite !prefix_replace by reflexivity. }
    rewrite decode_hit_amp. f_equal. exact (Htail "amp;" v eq_refl). }
  destruct (String.prefix "lt;" u) eqn:H3.
  { destruct (prefix_split _ _ H3) as [v ->]. unfold replaced.
    rewrite (replace_miss "nbsp;" " " _ H1).
    rewrite (replace_plain_prefix "nbsp;" " " "lt;" v eq_refl).
    rewrite (replace_miss "amp;" "&") by reflexivity.
    rewrite (replace_plain_prefix "amp;" "&" "lt;" _ eq_refl).
    rewrite (replace_hit "lt;" "<" _).
    change ("<" +:+ ?x) with (String "<" x).
    rewrite (replace_other "gt;" ">" "<") by discriminate.
    rewrite decode_hit_lt. f_equal. exact (Htail "lt;" v eq_refl). }
  destruct (String.prefix "gt;" u) eqn:H4.
  { destruct (prefix_split _ _ H4) as [v ->]. unfold replaced.
    rewrite (replace_miss "nbsp;" " " _ H1).
    rewrite (replace_plain_prefix "nbsp;" " " "gt;" v eq_refl).
    rewrite (replace_miss "amp;" "&") by reflexivity.
    rewrite (replace_plain_prefix "amp;" "&" "gt;" _ eq_refl).
    rewrite (replace_miss "lt;" "<") by reflexivity.
    rewrite (replace_plain_prefix "lt;" "<" "gt;" _ eq_refl).
    rewrite (replace_hit "gt;" ">" _).
    change (">" +:+ ?x) with (String ">" x).
    rewrite decode_hit_gt. f_equal. exact (Htail "gt;" v eq_refl). }
  unfold replaced.
  rewrite (replace_miss "nbsp;" " " _ H1).
  rewrite (replace_miss "amp;" "&").
  2: { now rewrite prefix_replace by reflexivity. }
  rewrite (replace_miss "lt;" "<").
  2: { now rewrite !prefix_replace by reflexivity. }
  rewrite (replace_miss "gt;" ">").
  2: { now rewrite !prefix_replace by reflexivity. }
  rewrite (decode_miss u H1 H2 H3 H4).
  f_equal. apply IH; [lia | now apply no_escaped_angle_cons in Hok].
Qed.

(** Outside the doubly decoded case the page text is the specification's:
    tags removed, then each of the four entities decoded once. *)
Lemma plainText_meets_spec (s : string) :
  no_escaped_angle (stripTags s) = true ->
  Picker.plainText s = plainText_spec s.
Proof.
  intros Hok. rewrite plainText_replaced. unfold plainText_spec.
  now apply (replaced_decodes (String.length (stripTags s))).
Qed.

(** * Further properties of the code *)

Import PanelActions PickerSelectors Query Selection.

(** ** The wrappers and their callers in the panel *)


(** X2. [loadConnectionStatus] does nothing when the integration is not
    enabled.  Otherwise it sends the one status request and always ends
    with [loading] false: a returned answer becomes the connection status
    silently; a thrown failure leaves the status as it was and shows the
    failure toast.  It never throws and never touches [localStorage]. *)
Theorem loadConnectionStatus_outcomes (base : string) (w : world Panel.vars) :
  let cfg := Panel.config (vars w) in
  let req :=
    Request "GET" (ATLASSIAN_BASE_URL base +:+ "/connection/status")
      (bearer (localStorage w !! "token")) None in
  Panel.loadConnectionStatus base w =
    if truthy (Panel.atlassianEnabled cfg) then
      match settle (network w (events w) req) with
      | Ok status =>
          (Ok tt,
           World (localStorage w) (search w) (network w) (events w ++ [Fetch req])
             (Panel.Vars cfg false status))
      | Throw _ =>
          (Ok tt,
           World (localStorage w) (search w) (network w)
             (events w ++ [Fetch req;
                           ToastError "Failed to load Atlassian connection status" []])
             (Panel.Vars cfg false (Panel.connectionStatus (vars w))))
      end
    else (Ok tt, w).
Proof.
  cbv zeta. unfold Panel.loadConnectionStatus, getAtlassianConnectionStatus, call.
  unfold_js.
  destruct (truthy (Panel.atlassianEnabled (Panel.config (vars w)))); [| reflexivity].
  world_simpl.
  match goal with
  | |- context [settle ?r] => destruct (settle r)
  end; world_simpl; rewrite <- ?app_assoc; reflexivity.
Qed.

(** X3. [handleDisconnect] does nothing when the user declines the
    confirmation.  Once confirmed it sends the one DELETE request and ends
    with [loading] false: if the wrapper returns, the status becomes
    [{connected: false, sites: []}] and the success toast is shown; if it
    throws, the status is kept and the failure toast is shown. *)
Theorem handleDisconnect_outcomes
    (base : string) (confirmed : bool) (w : world Panel.vars) :
  let cfg := Panel.config (vars w) in
  let req :=
    Request "DELETE" (ATLASSIAN_BASE_URL base +:+ "/connection")
      (bearer (localStorage w !! "token")) None in
  handleDisconnect base confirmed w =
    if confirmed then
      match settle (network w (events w) req) with
      | Ok _ =>
          (Ok tt,
           World (localStorage w) (search w) (network w)
             (events w ++ [Fetch req;
                           ToastSuccess "Atlassian account disconnected successfully"])
             (Panel.Vars cfg false (VObj [("connected", VBool false); ("sites", VArr [])])))
      | Throw _ =>
          (Ok tt,
           World (localStorage w) (search w) (network w)
             (events w ++ [Fetch req;
                           ToastError "Failed to disconnect Atlassian account" []])
             (Panel.Vars cfg false (Panel.connectionStatus (vars w))))
      end
    else (Ok tt, w).
Proof.
  cbv zeta. unfold handleDisconnect, disconnectAtlassian, call. unfold_js.
  destruct confirmed; [| reflexivity]. world_simpl.
  match goal with
  | |- context [settle ?r] => destruct (settle r)
  end; world_simpl; rewrite <- ?app_assoc; reflexivity.
Qed.

(** X4. With the client id or the redirect URI missing from the
    configuration, [handleConnect] only shows the configuration error: no
    state is generated or stored and the browser is not sent anywhere. *)
Theorem handleConnect_unconfigured
    (getRandomValues : nat -> Byte.byte) (w : world Panel.vars) :
  truthy (Panel.clientId (Panel.config (vars w))) = false
  \/ truthy (Panel.redirectUri (Panel.config (vars w))) = false ->
  Panel.handleConnect getRandomValues w =
    (Ok tt,
     World (localStorage w) (search w) (network w)
       (events w ++ [ToastError "Atlassian integration is not properly configured" []])
       (vars w)).
Proof.
  intros H. unfold Panel.handleConnect. unfold_js.
  destruct H as [-> | ->]; [reflexivity |].
  now rewrite orb_true_r.
Qed.

Lemma handleConnect_unconfigured_witness :
  Panel.handleConnect (fun _ => Byte.x00)
    (World ∅ [] quiet_network [] (Panel.Vars (VObj []) false VNull)) =
  (Ok tt,
   World ∅ [] quiet_network
     ([] ++ [ToastError "Atlassian integration is not properly configured" []])
     (Panel.Vars (VObj []) false VNull)).
Proof.
  exact (handleConnect_unconfigured (fun _ => Byte.x00)
           (World ∅ [] quiet_network [] (Panel.Vars (VObj []) false VNull))
           (or_introl eq_refl)).
Defined.

(** ** Returns from the authorization server *)

(** X5. When the return carries an [error] parameter the page handler
    shows it in the authentication-failed toast and cleans the address;
    whatever [code] and [state] come with it, no request is sent and the
    stored state is left alone. *)
Theorem page_callback_upstream_error
    (base : string) (w : world ConnectionsPage.vars) (err : string) :
  first_param "error" (search w) = Some err -> err <> "" ->
  ConnectionsPage.handleOAuthCallback base w =
    (Ok tt,
     World (localStorage w) [] (network w)
       (events w ++ [ToastError "OAuth authentication failed: {error}"
                       [("error", VStr err)];
                     Goto "/settings/connections"])
       (vars w)).
Proof.
  intros Herr Hne. unfold ConnectionsPage.handleOAuthCallback. unfold_js.
  rewrite Herr, present_Some by assumption.
  world_simpl. now rewrite <- app_assoc.
Qed.

Lemma page_callback_upstream_error_witness :
  events (snd (ConnectionsPage.handleOAuthCallback "/api/v1"
                 (World {["atlassian_oauth_state" := "S"]}
                    [("error", "access_denied"); ("code", "C"); ("state", "S")]
                    accepting_network [] (ConnectionsPage.Vars VNull false)))) =
    [ToastError "OAuth authentication failed: {error}" [("error", VStr "access_denied")];
     Goto "/settings/connections"].
Proof.
  rewrite (page_callback_upstream_error "/api/v1"
             (World {["atlassian_oauth_state" := "S"]}
                [("error", "access_denied"); ("code", "C"); ("state", "S")]
                accepting_network [] (ConnectionsPage.Vars VNull false))
             "access_denied" eq_refl);
    [reflexivity | discriminate].
Defined.

(** X6. The panel handler treats an [error] parameter the same way: the
    toast, the query dropped with [replaceState], and nothing else. *)
Theorem panel_callback_upstream_error
    (base : string) (w : world Panel.vars) (err : string) :
  first_param "error" (search w) = Some err -> err <> "" ->
  Panel.handleOAuthCallback base w =
    (Ok tt,
     World (localStorage w) [] (network w)
       (events w ++ [ToastError "OAuth authentication failed: {error}"
                       [("error", VStr err)];
                     ReplaceState])
       (vars w)).
Proof.
  intros Herr Hne. unfold Panel.handleOAuthCallback. unfold_js.
  rewrite Herr, present_Some by assumption.
  world_simpl. now rewrite <- app_assoc.
Qed.

Lemma panel_callback_upstream_error_witness :
  events (snd (Panel.handleOAuthCallback "/api/v1"
                 (World ∅ [("error", "access_denied"); ("code", "C"); ("state", "S")]
                    accepting_network [] (Panel.Vars sample_config false VNull)))) =
    [ToastError "OAuth authentication failed: {error}" [("error", VStr "access_denied")];
     ReplaceState].
Proof.
  rewrite (panel_callback_upstream_error "/api/v1"
             (World ∅ [("error", "access_denied"); ("code", "C"); ("state", "S")]
                accepting_network [] (Panel.Vars sample_config false VNull))
             "access_denied" eq_refl);
    [reflexivity | discriminate].
Defined.

(** X7. A return without an error that lacks a non-empty [code] or a
    non-empty [state] is ignored by the page handler altogether: nothing is
    sent, shown or stored, and the query stays in the address. *)
Theorem page_callback_incomplete (base : string) (w : world ConnectionsPage.vars) :
  present (first_param "error" (search w)) = false ->
  present (first_param "code" (search w)) = false
  \/ present (first_param "state" (search w)) = false ->
  ConnectionsPage.handleOAuthCallback base w = (Ok tt, w).
Proof.
  intros Herr H. unfold ConnectionsPage.handleOAuthCallback. unfold_js.
  rewrite Herr. destruct H as [-> | ->]; [reflexivity |].
  now rewrite andb_false_r.
Qed.

Lemma page_callback_incomplete_witness :
  ConnectionsPage.handleOAuthCallback "/api/v1"
    (World {["atlassian_oauth_state" := "S"]} [("code", "C")] accepting_network []
       (ConnectionsPage.Vars VNull false)) =
  (Ok tt,
   World {["atlassian_oauth_state" := "S"]} [("code", "C")] accepting_network []
     (ConnectionsPage.Vars VNull false)).
Proof.
  exact (page_callback_incomplete "/api/v1"
           (World {["atlassian_oauth_state" := "S"]} [("code", "C")] accepting_network []
              (ConnectionsPage.Vars VNull false))
           eq_refl (or_intror eq_refl)).
Defined.

(** X8. The panel handler ignores such a return as well, so that on a
    visit without a complete return mounting the panel amounts to loading
    the connection status. *)
Theorem panel_mount_without_return (base : string) (w : world Panel.vars) :
  present (first_param "error" (search w)) = false ->
  present (first_param "code" (search w)) = false
  \/ present (first_param "state" (search w)) = false ->
  Panel.handleOAuthCallback base w = (Ok tt, w)
  /\ Panel.onMount base w = Panel.loadConnectionStatus base w.
Proof.
  intros Herr H.
  assert (Hcb : Panel.handleOAuthCallback base w = (Ok tt, w)).
  { unfold Panel.handleOAuthCallback. unfold_js. rewrite Herr.
    destruct H as [-> | ->]; [reflexivity |].
    cbn [orb]. now destruct (present (first_param "code" (search w))). }
  split; [exact Hcb |].
  unfold Panel.onMount, bind. now rewrite Hcb.
Qed.

Lemma panel_mount_without_return_witness :
  Panel.onMount "/api/v1"
    (World ∅ [] quiet_network [] (Panel.Vars sample_config false VNull)) =
  Panel.loadConnectionStatus "/api/v1"
    (World ∅ [] quiet_network [] (Panel.Vars sample_config false VNull)).
Proof.
  exact (proj2 (panel_mount_without_return "/api/v1"
                  (World ∅ [] quiet_network [] (Panel.Vars sample_config false VNull))
                  eq_refl (or_introl eq_refl))).
Defined.

Section ExchangeOutcomes.
Variable base : string.
Variables code state : string.
Hypothesis code_given : code <> "".
Hypothesis state_given : state <> "".

Let callback_request (ls : gmap string string) : request :=
  Request "POST" (ATLASSIAN_BASE_URL base +:+ "/connection/callback")
    (bearer (ls !! "token"))
    (Some (VObj [("code", VStr code); ("state", VStr state)])).

(** X9. On a verified return that the backend accepts, the page handler
    removes the stored state, posts the code and state once, shows the
    success toast, cleans the address and reloads the page, in this order,
    and leaves [loading] false. *)
Theorem page_callback_success (w : world ConnectionsPage.vars) (body : value) :
  present (first_param "error" (search w)) = false ->
  first_param "code" (search w) = Some code ->
  first_param "state" (search w) = Some state ->
  localStorage w !! "atlassian_oauth_state" = Some state ->
  (forall evs r, network w evs r = Response true (Some body)) ->
  ConnectionsPage.handleOAuthCallback base w =
    (Ok tt,
     World (delete "atlassian_oauth_state" (localStorage w)) [] (network w)
       (events w ++
          [RemoveItem "atlassian_oauth_state";
           Fetch (callback_request (localStorage w));
           ToastSuccess "Atlassian account connected successfully";
           Goto "/settings/connections";
           Reload])
       (ConnectionsPage.Vars (ConnectionsPage.config (vars w)) false)).
Proof.
  intros Herr Hcode Hstate Hst Hnet.
  unfold ConnectionsPage.handleOAuthCallback, handleAtlassianCallback, call. unfold_js.
  rewrite Hcode, Hstate, Herr, !present_Some by assumption.
  world_simpl. rewrite Hst, bool_decide_true by reflexivity.
  world_simpl. rewrite lookup_delete_ne by discriminate.
  rewrite Hnet. cbn [settle on_fulfilled]. world_simpl.
  rewrite <- !app_assoc. reflexivity.
Qed.

(** X10. When the backend rejects the exchange with a detail text, the
    page handler shows that text in the failure toast and cleans the
    address without reloading; [loading] ends false and the stored state
    is already gone, so the same return cannot be tried again. *)
Theorem page_callback_rejected
    (w : world ConnectionsPage.vars) (body : value) (detail : string) :
  present (first_param "error" (search w)) = false ->
  first_param "code" (search w) = Some code ->
  first_param "state" (search w) = Some state ->
  localStorage w !! "atlassian_oauth_state" = Some state ->
  (forall evs r, network w evs r = Response false (Some body)) ->
  get body "detail" = Ok (VStr detail) -> detail <> "" ->
  ConnectionsPage.handleOAuthCallback base w =
    (Ok tt,
     World (delete "atlassian_oauth_state" (localStorage w)) [] (network w)
       (events w ++
          [RemoveItem "atlassian_oauth_state";
           Fetch (callback_request (localStorage w));
           ToastError "Failed to connect Atlassian account: {error}"
             [("error", VStr detail)];
           Goto "/settings/connections"])
       (ConnectionsPage.Vars (ConnectionsPage.config (vars w)) false)).
Proof.
  intros Herr Hcode Hstate Hst Hnet Hdetail Hne.
  unfold ConnectionsPage.handleOAuthCallback, handleAtlassianCallback, call. unfold_js.
  rewrite Hcode, Hstate, Herr, !present_Some by assumption.
  world_simpl. rewrite Hst, bool_decide_true by reflexivity.
  world_simpl. rewrite lookup_delete_ne by discriminate.
  rewrite Hnet.
  rewrite (settle_error_detail body (VStr detail) Hdetail)
    by (cbn; now apply String.eqb_neq in Hne as ->).
  world_simpl. cbn [get or_else truthy].
  rewrite <- !app_assoc. reflexivity.
Qed.

(** X11. When the exchange is rejected the panel handler shows its
    failure toast and drops the query; it does not ask for the connection
    status, keeps the status it had and ends with [loading] false. *)
Theorem panel_callback_rejected
    (w : world Panel.vars) (body detail : value) :
  present (first_param "error" (search w)) = false ->
  first_param "code" (search w) = Some code ->
  first_param "state" (search w) = Some state ->
  (forall evs r, network w evs r = Response false (Some body)) ->
  get body "detail" = Ok detail -> truthy detail = true ->
  Panel.handleOAuthCallback base w =
    (Ok tt,
     World (localStorage w) [] (network w)
       (events w ++
          [Fetch (callback_request (localStorage w));
           ToastError "Failed to connect Atlassian account" [];
           ReplaceState])
       (Panel.Vars (Panel.config (vars w)) false (Panel.connectionStatus (vars w)))).
Proof.
  intros Herr Hcode Hstate Hnet Hdetail Htrue.
  unfold Panel.handleOAuthCallback, handleAtlassianCallback, call. unfold_js.
  rewrite Hcode, Hstate, Herr, !present_Some by assumption.
  world_simpl. rewrite Hnet, (settle_error_detail body detail Hdetail Htrue).
  world_simpl. rewrite <- !app_assoc. reflexivity.
Qed.

End ExchangeOutcomes.

Lemma page_callback_success_witness :
  events (snd (ConnectionsPage.handleOAuthCallback "/api/v1"
                 (World {["atlassian_oauth_state" := "S"]} [("code", "C"); ("state", "S")]
                    accepting_network [] (ConnectionsPage.Vars VNull false)))) =
    [RemoveItem "atlassian_oauth_state";
     Fetch (Request "POST" "/api/v1/atlassian/connection/callback" "Bearer undefined"
              (Some (VObj [("code", VStr "C"); ("state", VStr "S")])));
     ToastSuccess "Atlassian account connected successfully";
     Goto "/settings/connections";
     Reload].
Proof.
  rewrite (page_callback_success "/api/v1" "C" "S"
             ltac:(discriminate) ltac:(discriminate)
             (World {["atlassian_oauth_state" := "S"]} [("code", "C"); ("state", "S")]
                accepting_network [] (ConnectionsPage.Vars VNull false))
             (VObj [("detail", VStr "connected")]))
    by (intros; reflexivity).
  reflexivity.
Defined.

Lemma page_callback_rejected_witness :
  events (snd (ConnectionsPage.handleOAuthCallback "/api/v1"
                 (World {["atlassian_oauth_state" := "S"]} [("code", "C"); ("state", "S")]
                    (fun _ _ => Response false (Some (VObj [("detail", VStr "expired")])))
                    [] (ConnectionsPage.Vars VNull false)))) =
    [RemoveItem "atlassian_oauth_state";
     Fetch (Request "POST" "/api/v1/atlassian/connection/callback" "Bearer undefined"
              (Some (VObj [("code", VStr "C"); ("state", VStr "S")])));
     ToastError "Failed to connect Atlassian account: {error}" [("error", VStr "expired")];
     Goto "/settings/connections"].
Proof.
  rewrite (page_callback_rejected "/api/v1" "C" "S"
             ltac:(discriminate) ltac:(discriminate)
             (World {["atlassian_oauth_state" := "S"]} [("code", "C"); ("state", "S")]
                (fun _ _ => Response false (Some (VObj [("detail", VStr "expired")])))
                [] (ConnectionsPage.Vars VNull false))
             (VObj [("detail", VStr "expired")]) "expired")
    by (intros; first [reflexivity | discriminate]).
  reflexivity.
Defined.

Lemma panel_callback_rejected_witness :
  events (snd (Panel.handleOAuthCallback "/api/v1"
                 (World ∅ [("code", "C"); ("state", "S")]
                    (fun _ _ => Response false (Some (VObj [("detail", VStr "expired")])))
                    [] (Panel.Vars sample_config false VNull)))) =
    [Fetch (Request "POST" "/api/v1/atlassian/connection/callback" "Bearer undefined"
              (Some (VObj [("code", VStr "C"); ("state", VStr "S")])));
     ToastError "Failed to connect Atlassian account" [];
     ReplaceState].
Proof.
  rewrite (panel_callback_rejected "/api/v1" "C" "S"
             ltac:(discriminate) ltac:(discriminate)
             (World ∅ [("code", "C"); ("state", "S")]
                (fun _ _ => Response false (Some (VObj [("detail", VStr "expired")])))
                [] (Panel.Vars sample_config false VNull))
             (VObj [("detail", VStr "expired")]) (VStr "expired"))
    by (intros; reflexivity).
  reflexivity.
Defined.

(** ** Searching and listing from the picker *)

(** X12. With a query that is empty or only white space, or with no site
    selected, [performSearch] returns at once: no request is sent and
    nothing changes, not even the results of an earlier search. *)
Theorem performSearch_without_query (base : string) (w : world Picker.vars) :
  trim (Picker.searchQuery (vars w)) = ""
  \/ truthy (Picker.selectedSite (vars w)) = false ->
  Picker.performSearch base w = (Ok tt, w).
Proof.
  intros H. unfold Picker.performSearch. unfold_js. cbn [truthy].
  destruct H as [-> | ->]; [reflexivity |].
  now rewrite orb_true_r.
Qed.

Lemma performSearch_without_query_witness :
  Picker.performSearch "/api/v1"
    (World ∅ [] accepting_network [] (picker_vars Picker.Jira "   ")) =
  (Ok tt, World ∅ [] accepting_network [] (picker_vars Picker.Jira "   ")).
Proof.
  exact (performSearch_without_query "/api/v1"
           (World ∅ [] accepting_network [] (picker_vars Picker.Jira "   "))
           (or_introl eq_refl)).
Defined.

(** X13. [performSearch] never throws and never touches [localStorage] or
    the address.  Either it returns at once and changes nothing, or it
    sends exactly one request and ends with [loading] false, showing at
    most the one "Search failed" toast. *)
Theorem performSearch_settles (base : string) (w : world Picker.vars) :
  exists w',
    Picker.performSearch base w = (Ok tt, w')
    /\ localStorage w' = localStorage w
    /\ search w' = search w
    /\ (w' = w
        \/ (Picker.loading (vars w') = false
            /\ exists r,
                 events w' = events w ++ [Fetch r]
                 \/ events w' = events w ++ [Fetch r; ToastError "Search failed" []])).
Proof.
  unfold Picker.performSearch, searchJiraIssues, searchConfluencePages, call. unfold_js.
  destruct (negb (truthy (VStr (trim (Picker.searchQuery (vars w)))))
            || negb (truthy (Picker.selectedSite (vars w)))) eqn:Hguard.
  { eexists. repeat split. now left. }
  apply orb_false_elim in Hguard as [_ Hsite]. apply negb_false_iff in Hsite.
  world_simpl.
  rewrite (get_not_nullish _ "id" (truthy_not_nullish _ Hsite)).
  destruct (Picker.selectedType (vars w)); world_simpl;
    match goal with
    | |- context [settle ?r] => destruct (settle r) as [result | e]
    end; world_simpl.
  - destruct (get result "issues"); world_simpl; rewrite <- ?app_assoc;
      eexists; repeat split; right; (split; [reflexivity |]); eexists; eauto.
  - rewrite <- ?app_assoc.
    eexists; repeat split; right; (split; [reflexivity |]); eexists; eauto.
  - destruct (get result "error") as [err |]; world_simpl.
    + destruct (eq_str err "no_access"); world_simpl.
      * eexists; repeat split; right; (split; [reflexivity |]); eexists; eauto.
      * destruct (get result "results"); world_simpl; rewrite <- ?app_assoc;
          eexists; repeat split; right; (split; [reflexivity |]); eexists; eauto.
    + rewrite <- ?app_assoc.
      eexists; repeat split; right; (split; [reflexivity |]); eexists; eauto.
  - rewrite <- ?app_assoc.
    eexists; repeat split; right; (split; [reflexivity |]); eexists; eauto.
Qed.

(** X14. A Jira search that is answered with a JSON object shows the
    object's [issues] as the results, or an empty list when it has none,
    with no toast; it ends with [loading] false and leaves the no-access
    flag as it was. *)
Theorem jira_search_results
    (base : string) (w : world Picker.vars) (props : list (string * value)) :
  Picker.selectedType (vars w) = Picker.Jira ->
  truthy (Picker.selectedSite (vars w)) = true ->
  trim (Picker.searchQuery (vars w)) <> "" ->
  (forall r, network w (events w) r = Response true (Some (VObj props))) ->
  let done := Picker.performSearch base w in
  fst done = Ok tt
  /\ Picker.searchResults (vars (snd done)) = or_else (lookup_prop "issues" props) (VArr [])
  /\ Picker.loading (vars (snd done)) = false
  /\ Picker.noConfluenceAccess (vars (snd done)) = Picker.noConfluenceAccess (vars w)
  /\ events (snd done) =
       events w ++
       [Fetch (Request "POST" (ATLASSIAN_BASE_URL base +:+ "/search/jira")
                 (bearer (localStorage w !! "token"))
                 (Some (stringify
                          [("site_id", get_opt (Picker.selectedSite (vars w)) "id");
                           ("query", VStr (Picker.searchQuery (vars w)));
                           ("max_results", VNum "20")])))].
Proof.
  intros Htype Hsite Hq Hnet done. subst done.
  unfold Picker.performSearch, searchJiraIssues, call. unfold_js.
  cbn [truthy]. apply String.eqb_neq in Hq. rewrite Hq, Hsite, Htype. world_simpl.
  rewrite (get_not_nullish _ "id" (truthy_not_nullish _ Hsite)).
  rewrite Hnet. cbn [settle on_fulfilled get]. world_simpl.
  repeat split; reflexivity.
Qed.

Lemma jira_search_results_witness :
  Picker.searchResults
    (vars (snd (Picker.performSearch "/api/v1"
                  (World ∅ [] (serving (VObj [("issues", VArr [issue_unassigned])])) []
                     (picker_vars Picker.Jira "keys")))))
    = VArr [issue_unassigned].
Proof.
  destruct (jira_search_results "/api/v1"
              (World ∅ [] (serving (VObj [("issues", VArr [issue_unassigned])])) []
                 (picker_vars Picker.Jira "keys"))
              [("issues", VArr [issue_unassigned])] eq_refl eq_refl)
    as (_ & Hres & _).
  - vm_compute. discriminate.
  - reflexivity.
  - exact Hres.
Defined.

(** X15. A Confluence search answered with a JSON object that does not
    say [no_access] lowers the no-access flag and shows the object's
    [results], or an empty list when it has none.  The request carries the
    query as typed, at most 20 results, and the key of the selected space
    only when a space is selected. *)
Theorem confluence_search_results
    (base : string) (w : world Picker.vars) (props : list (string * value)) :
  Picker.selectedType (vars w) = Picker.Confluence ->
  truthy (Picker.selectedSite (vars w)) = true ->
  trim (Picker.searchQuery (vars w)) <> "" ->
  (forall r, network w (events w) r = Response true (Some (VObj props))) ->
  eq_str (lookup_prop "error" props) "no_access" = false ->
  let done := Picker.performSearch base w in
  let spaceKey := get_opt (Picker.selectedSpace (vars w)) "key" in
  fst done = Ok tt
  /\ Picker.searchResults (vars (snd done)) = or_else (lookup_prop "results" props) (VArr [])
  /\ Picker.noConfluenceAccess (vars (snd done)) = false
  /\ Picker.loading (vars (snd done)) = false
  /\ events (snd done) =
       events w ++
       [Fetch (Request "POST" (ATLASSIAN_BASE_URL base +:+ "/search/confluence")
                 (bearer (localStorage w !! "token"))
                 (Some (stringify
                          ([("site_id", get_opt (Picker.selectedSite (vars w)) "id");
                            ("query", VStr (Picker.searchQuery (vars w)))]
                           ++ match spaceKey with
                              | VUndefined => []
                              | key => [("space_key", key)]
                              end
                           ++ [("max_results", VNum "20")]))))].
Proof.
  intros Htype Hsite Hq Hnet Herr done spaceKey. subst done spaceKey.
  unfold Picker.performSearch, searchConfluencePages, call. unfold_js.
  cbn [truthy]. apply String.eqb_neq in Hq. rewrite Hq, Hsite, Htype. world_simpl.
  rewrite (get_not_nullish _ "id" (truthy_not_nullish _ Hsite)).
  rewrite Hnet. cbn [settle on_fulfilled get]. rewrite Herr. world_simpl.
  repeat split; try reflexivity.
  do 4 f_equal. unfold stringify.
  destruct (get_opt (Picker.selectedSpace (vars w)) "key"); reflexivity.
Qed.

Lemma confluence_search_results_witness :
  Picker.searchResults
    (vars (snd (Picker.performSearch "/api/v1"
                  (World ∅ [] (serving (VObj [("results", VArr [page_without_body])])) []
                     (picker_vars Picker.Confluence "runbook")))))
    = VArr [page_without_body].
Proof.
  destruct (confluence_search_results "/api/v1"
              (World ∅ [] (serving (VObj [("results", VArr [page_without_body])])) []
                 (picker_vars Picker.Confluence "runbook"))
              [("results", VArr [page_without_body])] eq_refl eq_refl)
    as (_ & Hres & _).
  - vm_compute. discriminate.
  - reflexivity.
  - reflexivity.
  - exact Hres.
Defined.

(** X16. [loadConfluenceSpaces] does nothing unless a site is selected and
    the type is Confluence.  Otherwise it sends the one spaces request and
    is silent whatever comes back: it never throws and never shows a toast;
    the list becomes the answer's [results] when there are some and the
    answer does not say [no_access], and is empty in every other case; no
    space is selected and [loadingSpaces] ends false.  (A site id that
    cannot be written into the address ends the same way, with nothing
    sent.) *)
Theorem loadConfluenceSpaces_outcomes (base : string) (w : world Picker.vars) :
  let v := vars w in
  let req siteId :=
    Request "GET"
      (ATLASSIAN_BASE_URL base +:+ "/confluence/" +:+ siteId +:+ "/spaces")
      (bearer (localStorage w !! "token")) None in
  let spaces siteId :=
    match settle (network w (events w) (req siteId)) with
    | Ok result =>
        if nullish result || eq_str (get_opt result "error") "no_access" then VArr []
        else or_else (get_opt result "results") (VArr [])
    | Throw _ => VArr []
    end in
  let ended sent spaces :=
    (Ok tt,
     World (localStorage w) (search w) (network w) (events w ++ sent)
       (Picker.Vars (Picker.show v) (Picker.loading v) (Picker.searchQuery v)
          (Picker.selectedSite v) (Picker.selectedType v) (Picker.searchResults v)
          (Picker.noConfluenceAccess v) spaces VNull false)) in
  Picker.loadConfluenceSpaces base w =
    if truthy (Picker.selectedSite v)
       && match Picker.selectedType v with Picker.Confluence => true | _ => false end
    then
      match toString (get_opt (Picker.selectedSite v) "id") with
      | Ok siteId => ended [Fetch (req siteId)] (spaces siteId)
      | Throw _ => ended [] (VArr [])
      end
    else (Ok tt, w).
Proof.
  cbv zeta. unfold Picker.loadConfluenceSpaces, getConfluenceSpaces, call. unfold_js.
  destruct (truthy (Picker.selectedSite (vars w))) eqn:Hsite; [| reflexivity].
  destruct (Picker.selectedType (vars w)) eqn:Htype; [reflexivity |].
  world_simpl.
  rewrite (get_not_nullish _ "id" (truthy_not_nullish _ Hsite)).
  destruct (toString (get_opt (Picker.selectedSite (vars w)) "id")) as [siteId | e];
    world_simpl.
  2: { unfold Picker.set_loadingSpaces, Picker.set_selectedSpace,
         Picker.set_confluenceSpaces.
       cbn [Picker.show Picker.loading Picker.searchQuery Picker.selectedSite
            Picker.selectedType Picker.searchResults Picker.noConfluenceAccess].
       now rewrite Htype, app_nil_r. }
  match goal with
  | |- context [settle ?r] => destruct (settle r) as [result | e]
  end; world_simpl.
  2: { unfold Picker.set_loadingSpaces, Picker.set_selectedSpace,
         Picker.set_confluenceSpaces.
       cbn [Picker.show Picker.loading Picker.searchQuery Picker.selectedSite
            Picker.selectedType Picker.searchResults Picker.noConfluenceAccess].
       now rewrite Htype. }
  destruct (nullish result) eqn:Hnull.
  - destruct result; try discriminate; world_simpl;
      unfold Picker.set_loadingSpaces, Picker.set_selectedSpace,
        Picker.set_confluenceSpaces;
      cbn [Picker.show Picker.loading Picker.searchQuery Picker.selectedSite
           Picker.selectedType Picker.searchResults Picker.noConfluenceAccess];
      now rewrite Htype.
  - rewrite !(get_not_nullish result) by assumption. world_simpl.
    destruct (eq_str (get_opt result "error") "no_access"); world_simpl;
      rewrite ?(get_not_nullish result) by assumption; world_simpl;
      unfold Picker.set_loadingSpaces, Picker.set_selectedSpace,
        Picker.set_confluenceSpaces;
      cbn [Picker.show Picker.loading Picker.searchQuery Picker.selectedSite
           Picker.selectedType Picker.searchResults Picker.noConfluenceAccess];
      now rewrite Htype.
Qed.
(** ** Selecting a result *)

Lemma get_Ok_not_nullish (v : value) (k : string) (x : value) :
  get v k = Ok x -> nullish v = false.
Proof. now destruct v. Qed.

Lemma jiraMetadata_eq (site fullIssue : value) (siteUrl key : string) :
  nullish site = false -> nullish fullIssue = false ->
  nullish (get_opt fullIssue "fields") = false ->
  toString (get_opt site "url") = Ok siteUrl ->
  toString (get_opt fullIssue "key") = Ok key ->
  Picker.jiraMetadata site fullIssue = Ok (issue_metadata site fullIssue siteUrl key).
Proof.
  intros Hsite Hissue Hfields Hurl Hkey. unfold Picker.jiraMetadata, issue_metadata.
  rewrite !(get_not_nullish fullIssue), !(get_not_nullish site) by assumption.
  rewrite Hurl, Hkey.
  now rewrite (get_not_nullish (get_opt fullIssue "fields")) by assumption.
Qed.

Lemma confluenceMetadata_eq (site fullPage : value) (url : string) :
  nullish site = false -> nullish fullPage = false ->
  page_url site fullPage = Ok url ->
  Picker.confluenceMetadata site fullPage = Ok (page_metadata site fullPage url).
Proof.
  intros Hsite Hpage. unfold Picker.confluenceMetadata, page_metadata, page_url.
  rewrite !(get_not_nullish fullPage), !(get_not_nullish site) by assumption.
  destruct (toString (get_opt site "url")) as [siteUrl |]; [| discriminate].
  destruct (truthy (get_opt fullPage "_links")) eqn:Hlinks.
  - rewrite (get_opt_truthy _ "webui" Hlinks). cbn [andb].
    destruct (truthy (get_opt (get_opt fullPage "_links") "webui")).
    + destruct (toString (get_opt (get_opt fullPage "_links") "webui"));
        [| discriminate].
      now intros [= <-].
    + destruct (toString (or_else (get_opt (get_opt fullPage "space") "key")
                            (VStr "SPACE"))); [| discriminate].
      destruct (toString (get_opt fullPage "id")); [| discriminate].
      now intros [= <-].
  - cbn [andb].
    destruct (toString (or_else (get_opt (get_opt fullPage "space") "key")
                          (VStr "SPACE"))); [| discriminate].
    destruct (toString (get_opt fullPage "id")); [| discriminate].
    now intros [= <-].
Qed.

Lemma jiraContent_Ok_fields (fullIssue : value) (content : string) :
  Picker.jiraContent fullIssue = Ok content ->
  nullish fullIssue = false /\ nullish (get_opt fullIssue "fields") = false.
Proof.
  unfold Picker.jiraContent. intros H.
  destruct (get fullIssue "key") eqn:Hkey; [| discriminate].
  assert (Hi : nullish fullIssue = false) by now apply get_Ok_not_nullish in Hkey.
  split; [exact Hi |].
  destruct (toString a); [| discriminate].
  rewrite (get_not_nullish fullIssue "fields" Hi) in H.
  destruct (get (get_opt fullIssue "fields") "summary") eqn:Hs; [| discriminate].
  now apply get_Ok_not_nullish in Hs.
Qed.

Lemma confluenceContent_Ok_page (toLocaleDateString : value -> string)
    (fullPage : value) (content : string) :
  Picker.confluenceContent toLocaleDateString fullPage = Ok content ->
  nullish fullPage = false.
Proof.
  unfold Picker.confluenceContent. intros H.
  destruct (get fullPage "title") eqn:Ht; [| discriminate].
  now apply get_Ok_not_nullish in Ht.
Qed.

Section SelectItem.
Variable base : string.
Variable toLocaleDateString : value -> string.

(** X17. Selecting a Jira result whose full issue the backend returns and
    the renderer can format fetches the issue once and hands [onSelect]
    one object: the rendered content and a metadata record with the type
    [atlassian_jira], the issue key, the browse address under the site,
    the summary as title and the site's id and name; the modal closes and
    [loading] ends false.  The site id and the key of the result are
    written into the request address, the site address and the key of the
    issue into the browse address, each as its text. *)
Theorem selectItem_jira
    (w : world Picker.vars) (item fullIssue : value)
    (siteId itemKey siteUrl key content : string) :
  let v := vars w in
  Picker.selectedType v = Picker.Jira ->
  nullish (Picker.selectedSite v) = false ->
  nullish item = false ->
  toString (get_opt (Picker.selectedSite v) "id") = Ok siteId ->
  toString (get_opt item "key") = Ok itemKey ->
  (forall r, network w (events w) r = Response true (Some fullIssue)) ->
  Picker.jiraContent fullIssue = Ok content ->
  toString (get_opt (Picker.selectedSite v) "url") = Ok siteUrl ->
  toString (get_opt fullIssue "key") = Ok key ->
  Picker.selectItem base toLocaleDateString item w =
    (Ok tt,
     World (localStorage w) (search w) (network w)
       (events w ++
          [Fetch (Request "GET"
                    (ATLASSIAN_BASE_URL base +:+ "/jira/" +:+ siteId
                       +:+ "/issue/" +:+ itemKey)
                    (bearer (localStorage w !! "token")) None);
           OnSelect (selection content
                       (issue_metadata (Picker.selectedSite v) fullIssue siteUrl key))])
       (Picker.set_loading false (Picker.set_show false (Picker.set_loading true v)))).
Proof.
  intros v Htype Hsite Hitem HsiteId HitemKey Hnet Hcontent Hurl Hkey. subst v.
  destruct (jiraContent_Ok_fields _ _ Hcontent) as [Hissue Hfields].
  unfold Picker.selectItem, getJiraIssue, call. unfold_js. world_simpl.
  cbn [Picker.selectedSite Picker.selectedType Picker.set_loading].
  rewrite (get_not_nullish _ "id" Hsite), Htype, (get_not_nullish _ "key" Hitem).
  world_simpl. rewrite HsiteId, HitemKey. world_simpl.
  rewrite Hnet. cbn [settle on_fulfilled]. world_simpl.
  rewrite Hcontent, (jiraMetadata_eq _ _ _ _ Hsite Hissue Hfields Hurl Hkey). world_simpl.
  rewrite <- !app_assoc. reflexivity.
Qed.

(** X18. Selecting a Confluence result the same way fetches the page once
    and hands [onSelect] the rendered content and a metadata record with
    the type [atlassian_confluence], the page id, the title, the site's id
    and name, and as address the page's [webui] link under [/wiki] when it
    has one, else [/wiki/spaces/KEY/pages/ID] with [SPACE] for a missing
    space key. *)
Theorem selectItem_confluence
    (w : world Picker.vars) (item fullPage : value)
    (siteId itemId url content : string) :
  let v := vars w in
  Picker.selectedType v = Picker.Confluence ->
  nullish (Picker.selectedSite v) = false ->
  nullish item = false ->
  toString (get_opt (Picker.selectedSite v) "id") = Ok siteId ->
  toString (get_opt item "id") = Ok itemId ->
  (forall r, network w (events w) r = Response true (Some fullPage)) ->
  Picker.confluenceContent toLocaleDateString fullPage = Ok content ->
  page_url (Picker.selectedSite v) fullPage = Ok url ->
  Picker.selectItem base toLocaleDateString item w =
    (Ok tt,
     World (localStorage w) (search w) (network w)
       (events w ++
          [Fetch (Request "GET"
                    (ATLASSIAN_BASE_URL base +:+ "/confluence/" +:+ siteId
                       +:+ "/content/" +:+ itemId)
                    (bearer (localStorage w !! "token")) None);
           OnSelect (selection content
                       (page_metadata (Picker.selectedSite v) fullPage url))])
       (Picker.set_loading false (Picker.set_show false (Picker.set_loading true v)))).
Proof.
  intros v Htype Hsite Hitem HsiteId HitemId Hnet Hcontent Hurl. subst v.
  assert (Hpage := confluenceContent_Ok_page _ _ _ Hcontent).
  unfold Picker.selectItem, getConfluenceContent, call. unfold_js. world_simpl.
  cbn [Picker.selectedSite Picker.selectedType Picker.set_loading].
  rewrite (get_not_nullish _ "id" Hsite), Htype, (get_not_nullish _ "id" Hitem).
  world_simpl. rewrite HsiteId, HitemId. world_simpl.
  rewrite Hnet. cbn [settle on_fulfilled]. world_simpl.
  rewrite Hcontent, (confluenceMetadata_eq _ _ _ Hsite Hpage Hurl). world_simpl.
  rewrite <- !app_assoc. reflexivity.
Qed.

(** X19. [selectItem] never throws and never touches [localStorage]; it
    sends at most one request and always ends with [loading] false.  It
    ends in exactly one of two ways: one call of [onSelect] after the one
    request, with the modal closed; or the one "Failed to fetch content"
    toast, with nothing handed over and the modal as it was. *)
Theorem selectItem_settles (w : world Picker.vars) (item : value) :
  exists w',
    Picker.selectItem base toLocaleDateString item w = (Ok tt, w')
    /\ localStorage w' = localStorage w
    /\ Picker.loading (vars w') = false
    /\ ((exists r sel,
           events w' = events w ++ [Fetch r; OnSelect sel]
           /\ Picker.show (vars w') = false)
        \/ (exists sent,
              (sent = [] \/ exists r, sent = [Fetch r])
              /\ events w' = events w ++ sent ++ [ToastError "Failed to fetch content" []]
              /\ Picker.show (vars w') = Picker.show (vars w))).
Proof.
  unfold Picker.selectItem, getJiraIssue, getConfluenceContent, call. unfold_js.
  world_simpl. cbn [Picker.selectedSite Picker.selectedType Picker.set_loading].
  destruct (get (Picker.selectedSite (vars w)) "id") as [siteId | e]; world_simpl.
  2: { eexists. repeat split. right. exists []. repeat split. now left. }
  destruct (Picker.selectedType (vars w)).
  - destruct (get item "key") as [key | e]; world_simpl.
    2: { eexists. repeat split. right. exists []. repeat split. now left. }
    destruct (toString siteId) as [siteText | e]; world_simpl.
    2: { eexists. repeat split. right. exists []. repeat split. now left. }
    destruct (toString key) as [keyText | e]; world_simpl.
    2: { eexists. repeat split. right. exists []. repeat split. now left. }
    match goal with
    | |- context [settle ?r] => destruct (settle r) as [fullIssue | e]
    end; world_simpl.
    2: { eexists. repeat split. right. eexists. split; [right; eauto |].
         split; [now rewrite <- !app_assoc | reflexivity]. }
    destruct (Picker.jiraContent fullIssue) as [content | e]; world_simpl.
    2: { eexists. repeat split. right. eexists. split; [right; eauto |].
         split; [now rewrite <- !app_assoc | reflexivity]. }
    destruct (Picker.jiraMetadata (Picker.selectedSite (vars w)) fullIssue)
      as [metadata | e]; world_simpl.
    2: { eexists. repeat split. right. eexists. split; [right; eauto |].
         split; [now rewrite <- !app_assoc | reflexivity]. }
    eexists. repeat split. left. do 2 eexists.
    split; [now rewrite <- !app_assoc | reflexivity].
  - destruct (get item "id") as [key | e]; world_simpl.
    2: { eexists. repeat split. right. exists []. repeat split. now left. }
    destruct (toString siteId) as [siteText | e]; world_simpl.
    2: { eexists. repeat split. right. exists []. repeat split. now left. }
    destruct (toString key) as [keyText | e]; world_simpl.
    2: { eexists. repeat split. right. exists []. repeat split. now left. }
    match goal with
    | |- context [settle ?r] => destruct (settle r) as [fullPage | e]
    end; world_simpl.
    2: { eexists. repeat split. right. eexists. split; [right; eauto |].
         split; [now rewrite <- !app_assoc | reflexivity]. }
    destruct (Picker.confluenceContent toLocaleDateString fullPage)
      as [content | e]; world_simpl.
    2: { eexists. repeat split. right. eexists. split; [right; eauto |].
         split; [now rewrite <- !app_assoc | reflexivity]. }
    destruct (Picker.confluenceMetadata (Picker.selectedSite (vars w)) fullPage)
      as [metadata | e]; world_simpl.
    2: { eexists. repeat split. right. eexists. split; [right; eauto |].
         split; [now rewrite <- !app_assoc | reflexivity]. }
    eexists. repeat split. left. do 2 eexists.
    split; [now rewrite <- !app_assoc | reflexivity].
Qed.

End SelectItem.

(** A value that cannot be printed ends the selection in the failure
    toast: the summary of this issue is an object with a [toString]
    property of its own, the heading's template literal throws, and
    nothing is handed to [onSelect]. *)
Lemma selectItem_unprintable_summary :
  Picker.jiraContent issue_with_unprintable_summary
    = Throw (TypeError "Cannot convert object to primitive value")
  /\ events (snd (Picker.selectItem "/api/v1" (fun _ => "1/1/2025")
                    (VObj [("key", VStr "OPS-8")])
                    (World ∅ [] (serving issue_with_unprintable_summary) []
                       (picker_vars Picker.Jira "keys"))))
     = [ Fetch (Request "GET" "/api/v1/atlassian/jira/site-1/issue/OPS-8"
                  "Bearer undefined" None);
         ToastError "Failed to fetch content" [] ].
Proof. split; reflexivity. Qed.

Lemma selectItem_jira_witness :
  events (snd (Picker.selectItem "/api/v1" (fun _ => "1/1/2025")
                 (VObj [("key", VStr "OPS-7")])
                 (World ∅ [] (serving issue_unassigned) []
                    (picker_vars Picker.Jira "keys")))) =
    [ Fetch (Request "GET" "/api/v1/atlassian/jira/site-1/issue/OPS-7"
               "Bearer undefined" None);
      OnSelect
        (selection
           ("## [OPS-7] Rotate the keys" +:+ newline +:+ newline
            +:+ "**Status:** Open" +:+ newline +:+ "**Type:** Task" +:+ newline
            +:+ newline +:+ "### Description" +:+ newline +:+ "No description")
           (VObj [ ("type", VStr "atlassian_jira"); ("key", VStr "OPS-7");
                   ("url", VStr "https://acme.atlassian.net/browse/OPS-7");
                   ("title", VStr "Rotate the keys");
                   ("siteId", VStr "site-1"); ("siteName", VStr "Acme") ])) ].
Proof.
  rewrite (selectItem_jira "/api/v1" (fun _ => "1/1/2025")
             (World ∅ [] (serving issue_unassigned) [] (picker_vars Picker.Jira "keys"))
             (VObj [("key", VStr "OPS-7")]) issue_unassigned
             "site-1" "OPS-7" "https://acme.atlassian.net" "OPS-7"
             ("## [OPS-7] Rotate the keys" +:+ newline +:+ newline
              +:+ "**Status:** Open" +:+ newline +:+ "**Type:** Task" +:+ newline
              +:+ newline +:+ "### Description" +:+ newline +:+ "No description"))
    by (intros; reflexivity).
  reflexivity.
Defined.

Lemma selectItem_confluence_witness :
  events (snd (Picker.selectItem "/api/v1" (fun _ => "1/1/2025")
                 (VObj [("id", VStr "42")])
                 (World ∅ [] (serving sample_page) []
                    (picker_vars Picker.Confluence "runbook")))) =
    [ Fetch (Request "GET" "/api/v1/atlassian/confluence/site-1/content/42"
               "Bearer undefined" None);
      OnSelect
        (selection
           ("## Runbook" +:+ newline +:+ newline +:+ "**Space:** OPS" +:+ newline
            +:+ "**Last Updated:** 1/1/2025" +:+ newline +:+ newline
            +:+ "Restart & check")
           (VObj [ ("type", VStr "atlassian_confluence"); ("id", VStr "42");
                   ("url", VStr "https://acme.atlassian.net/wiki/spaces/OPS/pages/42");
                   ("title", VStr "Runbook");
                   ("siteId", VStr "site-1"); ("siteName", VStr "Acme") ])) ].
Proof.
  rewrite (selectItem_confluence "/api/v1" (fun _ => "1/1/2025")
             (World ∅ [] (serving sample_page) [] (picker_vars Picker.Confluence "runbook"))
             (VObj [("id", VStr "42")]) sample_page
             "site-1" "42" "https://acme.atlassian.net/wiki/spaces/OPS/pages/42"
             ("## Runbook" +:+ newline +:+ newline +:+ "**Space:** OPS" +:+ newline
              +:+ "**Last Updated:** 1/1/2025" +:+ newline +:+ newline
              +:+ "Restart & check"))
    by (intros; reflexivity).
  reflexivity.
Defined.

(** X20. For a page that is an object, whose title, space and date can
    be written as text and whose chosen body is text or is missing, the
    Confluence content is the title heading; then the space line, when
    the page has a space, showing its name or else its key; then the
    last-updated line, when the version has a [when] or else a
    [createdAt] date; then the body as plain text, or the no-content
    notice when there is none.  The body is the storage value of the v1
    format when there is one, else the value of the v2 format. *)
Theorem confluenceContent_layout
    (toLocaleDateString : value -> string) (fullPage date : value)
    (title shown rendered : string) :
  nullish fullPage = false ->
  let space := get_opt fullPage "space" in
  let version := get_opt fullPage "version" in
  let updateDate := or_else (get_opt version "when") (get_opt version "createdAt") in
  toString (get_opt fullPage "title") = Ok title ->
  (truthy space = true ->
   toString (or_else (get_opt space "name") (get_opt space "key")) = Ok shown) ->
  (truthy version && truthy updateDate = true -> toPrimitive updateDate = Ok date) ->
  Picker.renderBody (chosen_body fullPage) = Ok rendered ->
  Picker.confluenceContent toLocaleDateString fullPage =
    Ok ("## " +:+ title +:+ newline +:+ newline
        +:+ (if truthy space
             then "**Space:** " +:+ shown +:+ newline
             else "")
        +:+ (if truthy version && truthy updateDate
             then "**Last Updated:** " +:+ toLocaleDateString date
                    +:+ newline +:+ newline
             else "")
        +:+ rendered).
Proof.
  intros Hpage space version updateDate Htitle Hshown Hdate Hbody.
  rewrite (confluenceContent_lines toLocaleDateString fullPage Hpage).
  cbv zeta. fold space version updateDate. rewrite Htitle, Hbody.
  destruct (truthy space); [rewrite Hshown by reflexivity |];
    (destruct (truthy version && truthy updateDate);
     [rewrite Hdate by reflexivity |]); reflexivity.
Qed.

Lemma confluenceContent_layout_witness :
  Picker.confluenceContent (fun _ => "1/1/2025") sample_page =
    Ok ("## Runbook" +:+ newline +:+ newline +:+ "**Space:** OPS" +:+ newline
        +:+ "**Last Updated:** 1/1/2025" +:+ newline +:+ newline
        +:+ "Restart & check").
Proof.
  apply (confluenceContent_layout (fun _ => "1/1/2025") sample_page
           (VStr "2025-01-01T09:30:00.000Z") "Runbook" "OPS" "Restart & check");
    intros; reflexivity.
Defined.

(** ** The query of the authorization address, read back *)

Lemma percent_decode_byte (c : ascii) (rest : string) :
  percent_decode (form_encode_byte c +:+ rest) = String c (percent_decode rest).
Proof. destruct c as [[] [] [] [] [] [] [] []]; reflexivity. Qed.

Lemma percent_decode_encode (s : string) : percent_decode (form_encode s) = s.
Proof.
  induction s as [|c s IH]; [reflexivity |].
  cbn [form_encode]. now rewrite percent_decode_byte, IH.
Qed.

Lemma contains_char_append (c : ascii) (a b : string) :
  contains_char c (a +:+ b) = contains_char c a || contains_char c b.
Proof.
  induction a as [|x a IH]; [reflexivity |].
  rewrite append_cons. cbn [contains_char]. now rewrite IH, orb_assoc.
Qed.

Lemma form_encode_byte_no_delimiter (c : ascii) :
  contains_char "&" (form_encode_byte c) = false
  /\ contains_char "=" (form_encode_byte c) = false
  /\ contains_char "?" (form_encode_byte c) = false.
Proof. destruct c as [[] [] [] [] [] [] [] []]; repeat split; reflexivity. Qed.

Lemma form_encode_no_delimiter (s : string) :
  contains_char "&" (form_encode s) = false
  /\ contains_char "=" (form_encode s) = false
  /\ contains_char "?" (form_encode s) = false.
Proof.
  induction s as [|c s (IH1 & IH2 & IH3)]; [repeat split; reflexivity |].
  cbn [form_encode]. rewrite !contains_char_append, IH1, IH2, IH3.
  destruct (form_encode_byte_no_delimiter c) as (-> & -> & ->). repeat split.
Qed.

Lemma split_on_whole (sep : ascii) (a : string) :
  contains_char sep a = false -> split_on sep a = [a].
Proof.
  induction a as [|c a IH]; [reflexivity |].
  cbn [contains_char split_on]. intros [Hc Ha]%orb_false_elim.
  now rewrite Hc, IH.
Qed.

Lemma split_on_first (sep : ascii) (a b : string) :
  contains_char sep a = false ->
  split_on sep (a +:+ String sep b) = a :: split_on sep b.
Proof.
  induction a as [|c a IH]; intros H.
  - rewrite append_nil_l. cbn [split_on]. now rewrite Ascii.eqb_refl.
  - cbn [contains_char] in H. apply orb_false_elim in H as [Hc Ha].
    rewrite append_cons. cbn [split_on]. now rewrite Hc, IH.
Qed.

Lemma cut_at_first (sep : ascii) (a b : string) :
  contains_char sep a = false ->
  cut_at sep (a +:+ String sep b) = (a, Some b).
Proof.
  induction a as [|c a IH]; intros H.
  - rewrite append_nil_l. cbn [cut_at]. now rewrite Ascii.eqb_refl.
  - cbn [contains_char] in H. apply orb_false_elim in H as [Hc Ha].
    rewrite append_cons. cbn [cut_at]. now rewrite Hc, IH.
Qed.

Lemma form_pair_parsed (k v : string) :
  let piece := form_encode k +:+ "=" +:+ form_encode v in
  contains_char "&" piece = false
  /\ String.eqb piece "" = false
  /\ cut_at "=" piece = (form_encode k, Some (form_encode v)).
Proof.
  cbv zeta.
  destruct (form_encode_no_delimiter k) as (Hk1 & Hk2 & _).
  destruct (form_encode_no_delimiter v) as (Hv1 & _ & _).
  change ("=" +:+ form_encode v) with (String "=" (form_encode v)).
  split; [| split].
  - rewrite contains_char_append. cbn [contains_char]. now rewrite Hk1, Hv1.
  - destruct (form_encode k); reflexivity.
  - now apply cut_at_first.
Qed.

Lemma URLSearchParams_round_trip (params : list (string * string)) :
  URLSearchParams_parse (URLSearchParams_toString params) = params.
Proof.
  unfold URLSearchParams_parse, URLSearchParams_toString.
  induction params as [|[k v] params IH]; [reflexivity |].
  destruct (form_pair_parsed k v) as (Hamp & Hne & Hcut).
  destruct params as [|kv2 params].
  - cbn [map join fst snd]. rewrite split_on_whole by assumption.
    cbn [flat_map]. rewrite Hne, Hcut, !percent_decode_encode. reflexivity.
  - cbn [map join fst snd] in *.
    change ("&" +:+ ?x) with (String "&" x).
    rewrite split_on_first by assumption.
    cbn [flat_map]. rewrite Hne, Hcut, !percent_decode_encode.
    cbn [app]. f_equal. exact IH.
Qed.

(** X21. Parsing the query of the address that [generateAtlassianOAuthURL]
    builds gives back exactly the seven parameters: whatever bytes the
    client id, scope, redirect URI and state hold, each arrives as it was
    given, so the [state] the authorization server sees is the generated
    one. *)
Theorem generateAtlassianOAuthURL_round_trip (clientId redirectUri scope state : string) :
  URLSearchParams_parse
    (query_of (generateAtlassianOAuthURL clientId redirectUri scope state)) =
    [ ("audience", "api.atlassian.com");
      ("client_id", clientId);
      ("scope", scope);
      ("redirect_uri", redirectUri);
      ("state", state);
      ("response_type", "code");
      ("prompt", "consent") ].
Proof.
  unfold generateAtlassianOAuthURL, query_of.
  change ("https://auth.atlassian.com/authorize?" +:+ ?q)
    with ("https://auth.atlassian.com/authorize" +:+ String "?" q).
  rewrite cut_at_first by reflexivity. cbn [snd].
  apply URLSearchParams_round_trip.
Qed.

(** ** Tag removal and entity decoding *)

Lemma strip_from_no_tag (s : string) : has_tag s = false -> strip_from false s = s.
Proof.
  induction s as [|c s IH]; [reflexivity |].
  cbn [has_tag strip_from]. intros [Hc Hs]%orb_false_elim.
  now rewrite Hc, IH.
Qed.

Lemma strip_from_length (inTag : bool) (s : string) :
  String.length (strip_from inTag s) <= String.length s.
Proof.
  revert inTag. induction s as [|c s IH]; intros inTag; [reflexivity |].
  cbn [strip_from String.length].
  destruct inTag.
  - destruct (Ascii.eqb c ">"); [specialize (IH false) | specialize (IH true)]; lia.
  - destruct (Ascii.eqb c "<" && contains_char ">" s);
      [specialize (IH true) | specialize (IH false); cbn [String.length]]; lia.
Qed.

Lemma strip_from_unclosed (s : string) :
  contains_char ">" s = false -> strip_from false s = s.
Proof.
  induction s as [|c s IH]; [reflexivity |].
  cbn [contains_char strip_from]. intros [Hc Hs]%orb_false_elim.
  now rewrite Hs, andb_false_r, IH.
Qed.

(** X22. The tag-stripping replacement leaves no match of [<[^>]*>]
    behind, so applying it again changes nothing; it only deletes
    characters; and text without any [>] is returned as it is, an
    unclosed [<] included. *)
Theorem stripTags_clean (s : string) :
  has_tag (stripTags s) = false
  /\ stripTags (stripTags s) = stripTags s
  /\ String.length (stripTags s) <= String.length s
  /\ (contains_char ">" s = false -> stripTags s = s).
Proof.
  split; [apply stripTags_no_tag |].
  split; [apply strip_from_no_tag, stripTags_no_tag |].
  split; [apply strip_from_length | apply strip_from_unclosed].
Qed.

(** X23. On every body in which, once the tags are removed, no [&amp;] is
    followed by [lt;] or [gt;], the four replacements of the renderer give
    the text a single left-to-right decoding of [&nbsp;], [&amp;], [&lt;]
    and [&gt;] gives; every other character, other entities included, is
    kept. *)
Theorem plainText_decodes_once (s : string) :
  no_escaped_angle (stripTags s) = true ->
  Picker.plainText s = decode_entities (stripTags s).
Proof.
  intros Hok. rewrite plainText_replaced.
  now apply (replaced_decodes (String.length (stripTags s))).
Qed.

Lemma plainText_decodes_once_witness :
  Picker.plainText "<p>A &amp; B&nbsp;&lt;c&gt; &quot;d&quot;</p>"
    = decode_entities (stripTags "<p>A &amp; B&nbsp;&lt;c&gt; &quot;d&quot;</p>").
Proof.
  exact (plainText_decodes_once "<p>A &amp; B&nbsp;&lt;c&gt; &quot;d&quot;</p>" eq_refl).
Defined.

(** ** Rich documents *)

(** X24. On the JSON of any document tree, [extractTextFromADF] does not
    throw and returns, trimmed, the leaf texts in document order with a
    newline after every child of a paragraph or heading.  Handed a bare
    text node, which has no [content], it returns the empty string. *)
Theorem extractTextFromADF_document :
  (forall type children,
     Picker.extractTextFromADF (to_value (Node type children))
       = Ok (trim (gathered_text (Node type children))))
  /\ (forall s, Picker.extractTextFromADF (to_value (Text s)) = Ok "").
Proof.
  split.
  - intros type children. unfold Picker.extractTextFromADF.
    now rewrite processNode_gathers.
  - intros s. apply extractTextFromADF_no_content. reflexivity.
Qed.

(** ** The site icon *)

Lemma existsb_Permutation {A} (f : A -> bool) (l l' : list A) :
  Permutation l l' -> existsb f l = existsb f l'.
Proof.
  induction 1 as [| x l l' _ IH | x y l | l l' l'' _ IH1 _ IH2]; cbn.
  - reflexivity.
  - now rewrite IH.
  - now rewrite !orb_assoc, (orb_comm (f y)).
  - now rewrite IH1.
Qed.

(** X25. [getSiteIcon] depends only on whether some scope of the site has
    ["jira"] in it and whether some scope has ["confluence"] in it: the
    four icons are different strings, one for each of the four cases, and
    the order and repetition of the scopes do not matter. *)
Theorem getSiteIcon_reads_scopes (site : AtlassianSiteInfo) :
  let mentions product :=
    exists scope, In scope (scopes site) /\ includes scope product = true in
  (getSiteIcon site = icon_both <-> mentions "jira" /\ mentions "confluence")
  /\ (getSiteIcon site = icon_jira <-> mentions "jira" /\ ~ mentions "confluence")
  /\ (getSiteIcon site = icon_confluence <-> ~ mentions "jira" /\ mentions "confluence")
  /\ (getSiteIcon site = icon_unknown <-> ~ mentions "jira" /\ ~ mentions "confluence")
  /\ (forall site', Permutation (scopes site) (scopes site') ->
        getSiteIcon site' = getSiteIcon site).
Proof.
  cbv zeta. unfold getSiteIcon.
  assert (Hj := existsb_exists (fun scope => includes scope "jira") (scopes site)).
  assert (Hc := existsb_exists (fun scope => includes scope "confluence") (scopes site)).
  split; [| split; [| split; [| split]]].
  5: { intros site' Hperm.
       now rewrite <- !(existsb_Permutation _ _ _ Hperm). }
  all: destruct (existsb (fun scope => includes scope "jira") (scopes site));
    destruct (existsb (fun scope => includes scope "confluence") (scopes site));
    cbn [andb];
    (split;
     [ intros Heq; try discriminate Heq; split;
       first [ now apply Hj | now apply Hc
             | (intros H; apply Hj in H; discriminate)
             | (intros H; apply Hc in H; discriminate) ]
     | intros [H1 H2]; try reflexivity; exfalso;
       first [ apply H1; now apply Hj | apply H2; now apply Hc
             | (apply Hj in H1; discriminate) | (apply Hc in H2; discriminate)
             | (apply Hj in H1; discriminate H1) | (apply Hc in H1; discriminate)
             | (apply Hj in H2; discriminate) ] ]).
Qed.

(** ** The picker's selectors *)

(** X26. Changing the content type never throws: it stores the type,
    lowers the no-access flag and empties the results, whatever they
    were.  A change to Jira sends nothing; a change to Confluence sends
    exactly the one spaces request for the selected site, and nothing when
    no site is selected (or the site's id cannot be written into the
    address); no toast is shown either way. *)
Theorem onTypeChange_resets
    (base : string) (type : Picker.content_type) (w : world Picker.vars) :
  let site := Picker.selectedSite (vars w) in
  exists w',
    onTypeChange base type w = (Ok tt, w')
    /\ Picker.selectedType (vars w') = type
    /\ Picker.selectedSite (vars w') = site
    /\ Picker.noConfluenceAccess (vars w') = false
    /\ Picker.searchResults (vars w') = VArr []
    /\ localStorage w' = localStorage w
    /\ events w' =
         events w ++
         match type with
         | Picker.Jira => []
         | Picker.Confluence =>
             if truthy site then
               match toString (get_opt site "id") with
               | Ok siteId =>
                   [Fetch (Request "GET"
                             (ATLASSIAN_BASE_URL base +:+ "/confluence/" +:+ siteId
                                +:+ "/spaces")
                             (bearer (localStorage w !! "token")) None)]
               | Throw _ => []
               end
             else []
         end.
Proof.
  cbv zeta.
  unfold onTypeChange, Picker.loadConfluenceSpaces, getConfluenceSpaces, call. unfold_js.
  world_simpl.
  unfold set_selectedType, Picker.set_noConfluenceAccess, Picker.set_searchResults.
  cbn [Picker.selectedType Picker.selectedSite Picker.show Picker.loading
       Picker.searchQuery Picker.searchResults Picker.noConfluenceAccess
       Picker.confluenceSpaces Picker.selectedSpace Picker.loadingSpaces].
  destruct type.
  { eexists. repeat split. cbn. now rewrite app_nil_r. }
  world_simpl. cbn [Picker.selectedType Picker.selectedSite].
  destruct (truthy (Picker.selectedSite (vars w))) eqn:Hsite; world_simpl.
  2: { eexists. repeat split. cbn. now rewrite app_nil_r. }
  rewrite (get_not_nullish _ "id" (truthy_not_nullish _ Hsite)).
  destruct (toString (get_opt (Picker.selectedSite (vars w)) "id")) as [siteId | e];
    world_simpl.
  2: { eexists. repeat split. cbn. now rewrite app_nil_r. }
  match goal with
  | |- context [settle ?r] => destruct (settle r) as [result | e]
  end; world_simpl.
  2: { eexists. repeat split. }
  destruct (get result "error") as [err | e]; world_simpl.
  2: { eexists. repeat split. }
  destruct (eq_str err "no_access"); world_simpl.
  { eexists. repeat split. }
  destruct (get result "results"); world_simpl; eexists; repeat split.
Qed.

(** ** Connecting, returning and mounting together *)

Lemma lower_hex_safe (c : ascii) : lower_hex c = true -> form_encode_byte c = String c "".
Proof. destruct c as [[] [] [] [] [] [] [] []]; (discriminate || reflexivity). Qed.

Lemma form_encode_hex (s : string) : all_chars lower_hex s = true -> form_encode s = s.
Proof.
  induction s as [|c s IH]; [reflexivity |].
  cbn [all_chars form_encode]. intros [Hc Hs]%andb_prop.
  now rewrite (lower_hex_safe c Hc), IH.
Qed.

Lemma generateOAuthState_hex (rnd : nat -> Byte.byte) :
  all_chars lower_hex (generateOAuthState rnd) = true
  /\ String.length (generateOAuthState rnd) = 64.
Proof.
  rewrite generateOAuthState_bytes. split; [apply hex_bytes_chars |].
  now rewrite hex_bytes_length, !length_map, length_seq.
Qed.

Lemma generateOAuthState_not_empty (rnd : nat -> Byte.byte) : generateOAuthState rnd <> "".
Proof.
  intros H. destruct (generateOAuthState_hex rnd) as [_ Hlen].
  rewrite H in Hlen. discriminate.
Qed.

(** X27. A generated state needs no escaping: in the authorization
    address it stands after [&state=] letter for letter as it is stored,
    followed by the two fixed parameters. *)
Theorem generated_state_is_sent_verbatim
    (clientId redirectUri scope : string) (getRandomValues : nat -> Byte.byte) :
  let state := generateOAuthState getRandomValues in
  generateAtlassianOAuthURL clientId redirectUri scope state =
    "https://auth.atlassian.com/authorize?audience=api.atlassian.com&client_id="
      +:+ form_encode clientId
      +:+ "&scope=" +:+ form_encode scope
      +:+ "&redirect_uri=" +:+ form_encode redirectUri
      +:+ "&state=" +:+ state
      +:+ "&response_type=code&prompt=consent".
Proof.
  cbv zeta.
  rewrite <- (form_encode_hex (generateOAuthState getRandomValues))
    at 2 by apply generateOAuthState_hex.
  reflexivity.
Qed.

Lemma handleConnect_storage (rnd : nat -> Byte.byte) (w : world Panel.vars) :
  truthy (Panel.clientId (Panel.config (vars w))) = true ->
  truthy (Panel.redirectUri (Panel.config (vars w))) = true ->
  localStorage (snd (Panel.handleConnect rnd w)) =
    <["atlassian_oauth_state" := generateOAuthState rnd]> (localStorage w).
Proof.
  intros has_id has_uri.
  unfold Panel.handleConnect. unfold_js. rewrite has_id, has_uri. world_simpl.
  destruct (toString (Panel.clientId (Panel.config (vars w)))); [| reflexivity].
  destruct (toString (Panel.scope (Panel.config (vars w)))); [| reflexivity].
  now destruct (toString (Panel.redirectUri (Panel.config (vars w)))).
Qed.

Lemma handleConnect_vars (rnd : nat -> Byte.byte) (w : world Panel.vars) :
  vars (snd (Panel.handleConnect rnd w)) = vars w.
Proof.
  unfold Panel.handleConnect. unfold_js.
  destruct (negb (truthy (Panel.clientId (Panel.config (vars w))))
            || negb (truthy (Panel.redirectUri (Panel.config (vars w)))));
    [reflexivity |].
  world_simpl.
  destruct (toString (Panel.clientId (Panel.config (vars w)))); [| reflexivity].
  destruct (toString (Panel.scope (Panel.config (vars w)))); [| reflexivity].
  now destruct (toString (Panel.redirectUri (Panel.config (vars w)))).
Qed.

Section ConnectAndReturn.
Variable base : string.
Variable w : world Panel.vars.
Hypothesis has_id : truthy (Panel.clientId (Panel.config (vars w))) = true.
Hypothesis has_uri : truthy (Panel.redirectUri (Panel.config (vars w))) = true.

(** X28. Connect and return fit together: after [handleConnect] has
    stored its state, a return to the connections page that carries a code
    and that same state passes the page handler's check, which removes
    the slot and posts exactly this code and state. *)
Theorem return_after_connect
    (rnd : nat -> Byte.byte) (page : world ConnectionsPage.vars) (code : string) :
  localStorage page = localStorage (snd (Panel.handleConnect rnd w)) ->
  search page = [("code", code); ("state", generateOAuthState rnd)] ->
  code <> "" ->
  exists new,
    ConnectionsPage.handleOAuthCallback base page =
      (Ok tt,
       World (delete "atlassian_oauth_state" (localStorage page)) [] (network page)
         (events page ++ RemoveItem "atlassian_oauth_state" :: new)
         (ConnectionsPage.set_loading false (vars page)))
    /\ head new =
         Some (Fetch (Request "POST" (ATLASSIAN_BASE_URL base +:+ "/connection/callback")
                        (bearer (localStorage page !! "token"))
                        (Some (VObj [("code", VStr code);
                                     ("state", VStr (generateOAuthState rnd))])))).
Proof.
  intros Hls Hsearch Hcode.
  destruct (page_callback_match base page code (generateOAuthState rnd))
    as (new & Hrun & _ & _ & Hhead).
  - now rewrite Hsearch.
  - rewrite Hsearch. reflexivity.
  - assumption.
  - rewrite Hsearch. reflexivity.
  - apply generateOAuthState_not_empty.
  - rewrite Hls, handleConnect_storage by assumption. apply lookup_insert_eq.
  - exists new. split; assumption.
Qed.

(** X29. Only the latest attempt counts: when [handleConnect] has run a
    second time with random bytes that differ somewhere, a return carrying
    the state of the first attempt fails the page handler's check; the
    failure is shown, nothing is sent, and the newer state stays stored. *)
Theorem stale_state_rejected
    (rnd1 rnd2 : nat -> Byte.byte) (i : nat)
    (page : world ConnectionsPage.vars) (code : string) :
  (i < 32)%nat -> rnd1 i <> rnd2 i ->
  localStorage page =
    localStorage (snd (Panel.handleConnect rnd2 (snd (Panel.handleConnect rnd1 w)))) ->
  search page = [("code", code); ("state", generateOAuthState rnd1)] ->
  code <> "" ->
  ConnectionsPage.handleOAuthCallback base page =
    (Ok tt,
     World (localStorage page) [] (network page)
       (events page ++ [ToastError "OAuth state verification failed" [];
                        Goto "/settings/connections"])
       (vars page))
  /\ localStorage page !! "atlassian_oauth_state" = Some (generateOAuthState rnd2).
Proof.
  intros Hi Hdiff Hls Hsearch Hcode.
  assert (Hstored : localStorage page !! "atlassian_oauth_state"
                    = Some (generateOAuthState rnd2)).
  { rewrite Hls, handleConnect_storage by (now rewrite handleConnect_vars).
    apply lookup_insert_eq. }
  split; [| exact Hstored].
  apply (page_callback_mismatch base page code (generateOAuthState rnd1)).
  - now rewrite Hsearch.
  - rewrite Hsearch. reflexivity.
  - assumption.
  - rewrite Hsearch. reflexivity.
  - apply generateOAuthState_not_empty.
  - rewrite Hstored. intros [= Heq].
    apply Hdiff. symmetry. now apply (generateOAuthState_inj _ _ Heq).
Qed.

End ConnectAndReturn.

Lemma return_after_connect_witness :
  exists w',
    ConnectionsPage.handleOAuthCallback "/api/v1"
      (World (localStorage (snd (Panel.handleConnect (fun _ => Byte.x2a) stale_world)))
         [("code", "C"); ("state", generateOAuthState (fun _ => Byte.x2a))]
         accepting_network [] (ConnectionsPage.Vars VNull false)) = (Ok tt, w')
    /\ localStorage w' !! "atlassian_oauth_state" = None.
Proof.
  destruct (return_after_connect "/api/v1" stale_world eq_refl eq_refl
              (fun _ => Byte.x2a)
              (World (localStorage (snd (Panel.handleConnect (fun _ => Byte.x2a) stale_world)))
                 [("code", "C"); ("state", generateOAuthState (fun _ => Byte.x2a))]
                 accepting_network [] (ConnectionsPage.Vars VNull false))
              "C" eq_refl eq_refl)
    as (new & Hrun & _).
  - discriminate.
  - eexists. split; [exact Hrun |]. cbn [localStorage]. apply lookup_delete_eq.
Defined.

Lemma stale_state_rejected_witness :
  let page :=
    World (localStorage
             (snd (Panel.handleConnect (fun _ => Byte.x00)
                     (snd (Panel.handleConnect (fun _ => Byte.x2a) stale_world)))))
      [("code", "C"); ("state", generateOAuthState (fun _ => Byte.x2a))]
      accepting_network [] (ConnectionsPage.Vars VNull false) in
  events (snd (ConnectionsPage.handleOAuthCallback "/api/v1" page)) =
    [ToastError "OAuth state verification failed" []; Goto "/settings/connections"].
Proof.
  cbv zeta.
  destruct (stale_state_rejected "/api/v1" stale_world eq_refl eq_refl
              (fun _ => Byte.x2a) (fun _ => Byte.x00) 0
              (World (localStorage
                        (snd (Panel.handleConnect (fun _ => Byte.x00)
                                (snd (Panel.handleConnect (fun _ => Byte.x2a) stale_world)))))
                 [("code", "C"); ("state", generateOAuthState (fun _ => Byte.x2a))]
                 accepting_network [] (ConnectionsPage.Vars VNull false))
              "C")
    as [Hrun _].
  - lia.
  - discriminate.
  - reflexivity.
  - reflexivity.
  - discriminate.
  - rewrite Hrun. reflexivity.
Defined.

(** X30. Mounting the panel on an accepted return asks for the connection
    status twice: once inside the callback handler, after the exchange,
    the success toast and the cleaning of the address, and once more by
    the mount hook itself; the last answer is the status shown. *)
Theorem panel_mount_after_return
    (base : string) (w : world Panel.vars) (code state : string) (body : value) :
  truthy (Panel.atlassianEnabled (Panel.config (vars w))) = true ->
  present (first_param "error" (search w)) = false ->
  first_param "code" (search w) = Some code -> code <> "" ->
  first_param "state" (search w) = Some state -> state <> "" ->
  (forall evs r, network w evs r = Response true (Some body)) ->
  let token := localStorage w !! "token" in
  let status_request :=
    Request "GET" (ATLASSIAN_BASE_URL base +:+ "/connection/status") (bearer token) None in
  Panel.onMount base w =
    (Ok tt,
     World (localStorage w) [] (network w)
       (events w ++
          [Fetch (Request "POST" (ATLASSIAN_BASE_URL base +:+ "/connection/callback")
                    (bearer token)
                    (Some (VObj [("code", VStr code); ("state", VStr state)])));
           ToastSuccess "Atlassian account connected successfully";
           ReplaceState;
           Fetch status_request;
           Fetch status_request])
       (Panel.Vars (Panel.config (vars w)) false body)).
Proof.
  intros Hen Herr Hcode Hc Hstate Hs Hnet token status_request.
  subst token status_request.
  unfold Panel.onMount, Panel.handleOAuthCallback, Panel.loadConnectionStatus,
    handleAtlassianCallback, getAtlassianConnectionStatus, call.
  unfold_js.
  rewrite Hcode, Hstate, Herr, !present_Some by assumption.
  world_simpl. rewrite !Hnet. cbn [settle on_fulfilled]. world_simpl.
  unfold Panel.set_loading, Panel.set_connectionStatus.
  cbn [Panel.config Panel.loading Panel.connectionStatus].
  rewrite Hen. world_simpl. rewrite !Hnet. cbn [settle on_fulfilled]. world_simpl.
  cbn [Panel.config Panel.loading Panel.connectionStatus].
  rewrite ?Hen. world_simpl. rewrite ?Hnet. cbn [settle on_fulfilled]. world_simpl.
  cbn [Panel.config Panel.loading Panel.connectionStatus].
  rewrite <- !app_assoc. reflexivity.
Qed.

Lemma panel_mount_after_return_witness :
  count_events is_fetch
    (events (snd (Panel.onMount "/api/v1"
                    (World ∅ [("code", "C"); ("state", "S")] accepting_network []
                       (Panel.Vars sample_config false VNull))))) = 3.
Proof.
  rewrite (panel_mount_after_return "/api/v1"
             (World ∅ [("code", "C"); ("state", "S")] accepting_network []
                (Panel.Vars sample_config false VNull))
             "C" "S" (VObj [("detail", VStr "connected")]))
    by (intros; first [reflexivity | discriminate]).
  reflexivity.
Defined.
